(** * Face identity matching engine

    A shallow embedding of the face-recognition cache, the matcher scan, the
    enrollment path and the recognition route of the repository
    ([services/face_recognition_service.py], [services/face_service.py],
    [repositories/face_image_repository.py], [routes/face.py],
    [services/error_handler.py]).

    Conventions of the embedding:
    - floating-point numbers (distances, tolerance, confidence, clock
      readings) are rationals [Q]; the only irrational operation, the square
      root inside [np.linalg.norm], is a parameter [sqrtf] of the sections
      that need it;
    - a Python [dict] is an association list in insertion order, the order
      in which [dict.items()] enumerates it;
    - a Python exception caught by a [try]/[except] of the source is an
      [option] or a dedicated constructor at the place where it is caught;
    - what the outside world answers (the directory listing, what the image
      libraries find in a byte string, the clock) is an explicit argument. *)

From Stdlib Require Import ZArith QArith List String Ascii Bool Lia Lqa.
From Stdlib Require Import Permutation DecimalString.
Import ListNotations.

Local Open Scope Q_scope.

(** ** Python built-ins used by the source *)

Module Py.

Definition lower_ascii (c : ascii) : ascii :=
  let n := nat_of_ascii c in
  if ((65 <=? n) && (n <=? 90))%nat then ascii_of_nat (n + 32) else c.

(** [str.lower], on the ASCII range. *)
Fixpoint lower (s : string) : string :=
  match s with
  | EmptyString => EmptyString
  | String c r => String (lower_ascii c) (lower r)
  end.

(** [s.endswith(suffix)]. *)
Definition endswith (s suffix : string) : bool :=
  let n := String.length s in
  let k := String.length suffix in
  ((k <=? n)%nat && String.eqb (substring (n - k) k s) suffix)%bool.

(** [s.endswith((a, b, ...))]: any of the suffixes. *)
Definition endswith_any (s : string) (suffixes : list string) : bool :=
  existsb (endswith s) suffixes.

(** [str(n)] and the [{n}] of an f-string, for an integer. *)
Definition str_of_int (z : Z) : string :=
  NilZero.string_of_int (Z.to_int z).

(** [int(x)] of a float: truncation toward zero. *)
Definition int_of_float (x : Q) : Z :=
  Z.quot (Qnum x) (Zpos (Qden x)).

(** [os.path.join(a, b)] (POSIX). *)
Definition path_join (a b : string) : string :=
  if String.prefix "/" b then b
  else if (String.eqb a "" || endswith a "/")%bool then (a ++ b)%string
  else (a ++ "/" ++ b)%string.

(** [x < y] on floats. *)
Definition ltb (x y : Q) : bool := negb (Qle_bool y x).

(** [x <= y] on floats. *)
Definition leb (x y : Q) : bool := Qle_bool x y.

(** [needle in s], for strings. *)
Fixpoint contains (s needle : string) : bool :=
  if String.prefix needle s then true
  else
    match s with
    | EmptyString => false
    | String _ rest => contains rest needle
    end.

(** [sep.join(items)]. *)
Fixpoint join (sep : string) (items : list string) : string :=
  match items with
  | [] => EmptyString
  | [x] => x
  | x :: rest => (x ++ sep ++ join sep rest)%string
  end.

End Py.

(** ** A Python dict: association list in insertion order *)

Module PyDict.
Section Dict.
Context {V : Type}.

Definition t := list (string * V).

(** [d = {}] / [d.clear()]. *)
Definition empty : t := [].

(** [d[k] = v]: an existing key keeps its place, a new one goes last. *)
Fixpoint set (d : t) (k : string) (v : V) : t :=
  match d with
  | [] => [(k, v)]
  | (k', v') :: rest =>
      if String.eqb k' k then (k, v) :: rest
      else (k', v') :: set rest k v
  end.

(** [d.get(k)]. *)
Fixpoint get (d : t) (k : string) : option V :=
  match d with
  | [] => None
  | (k', v') :: rest => if String.eqb k' k then Some v' else get rest k
  end.

(** [list(d.keys())]. *)
Definition keys (d : t) : list string := map fst d.

(** [len(d)]. *)
Definition len (d : t) : nat := List.length d.
End Dict.
Arguments t V : clear implicits.
End PyDict.

(** ** JSON values, as [request.get_json()] returns them and [jsonify]
    takes them *)

Module PyValue.

#[warnings="-register-all"]
Inductive t :=
| VNone
| VBool (b : bool)
| VInt (z : Z)
| VFloat (x : Q)
| VStr (s : string)
| VList (items : list t)
| VDict (d : list (string * t)).

End PyValue.

(** ** The numeric library calls of the matcher

    [fr.face_distance(known, probe)] of the face_recognition package is
    [np.linalg.norm(known - probe, axis=1)], and
    [fr.compare_faces(known, probe, tolerance)] is
    [list(fr.face_distance(known, probe) <= tolerance)]. The source always
    calls them with a one-element list [known = [encoding]] and reads
    element 0 of the answer. *)

Definition Encoding := list Q.

Module Numpy.

Fixpoint zip_sub (a b : list Q) : list Q :=
  match a, b with
  | x :: a', y :: b' => (x - y) :: zip_sub a' b'
  | _, _ => []
  end.

(** [np.array([known]) - probe], shapes [(1, n)] and [(m,)]: equal
    lengths subtract pointwise, a length-1 operand is broadcast, any other
    pair of lengths raises [ValueError] ([None]). *)
Definition broadcast_sub (known probe : Encoding) : option (list Q) :=
  if (List.length known =? List.length probe)%nat then
    Some (zip_sub known probe)
  else
    match probe, known with
    | [p], _ => Some (map (fun k => k - p) known)
    | _, [k] => Some (map (fun p => k - p) probe)
    | _, _ => None
    end.

Definition sum_sq (v : list Q) : Q :=
  fold_right (fun x acc => x * x + acc) 0 v.

(** [bool(a)] of a one-dimensional array: an array of more than one
    element raises [ValueError] ([None]); a single element is its own
    truth value; the empty array is false (with a deprecation warning). *)
Definition ndarray_bool (a : Encoding) : option bool :=
  match a with
  | [] => Some false
  | [x] => Some (negb (Qeq_bool x 0))
  | _ :: _ :: _ => None
  end.

Section Norm.
(** The floating-point square root. *)
Variable sqrtf : Q -> Q.

(** [np.linalg.norm(v)] of one row. *)
Definition norm (v : list Q) : Q := sqrtf (sum_sq v).

(** [fr.face_distance([known], probe)[0]]. *)
Definition face_distance (known probe : Encoding) : option Q :=
  option_map norm (broadcast_sub known probe).

(** [fr.compare_faces([known], probe, tolerance=tolerance)[0]]. *)
Definition compare_faces (known probe : Encoding) (tolerance : Q)
  : option bool :=
  option_map (fun d => Py.leb d tolerance) (face_distance known probe).
End Norm.

(** A square root that is exact on squares of rationals (numerator and
    denominator are rooted separately); it instantiates [sqrtf] when the
    model is run on concrete vectors. *)
Definition exact_sqrt (x : Q) : Q :=
  Z.sqrt (Qnum x) # Pos.sqrt (Qden x).

End Numpy.

(** ** What the outside world answers *)

(** [image.format] as PIL reports it. *)
Inductive ImageFormat := JPEG | PNG | OtherFormat.

(** An uploaded byte string, described by what the image libraries answer
    on it. *)
Record RawImage := {
  pil_format : option ImageFormat; (* [None]: [Image.open] raises *)
  nbytes : Z;                      (* [len(image_data)] *)
  width : Z;
  height : Z;
  imdecode_ok : bool;              (* [cv2.imdecode] is not [None] *)
  face_locations : nat;            (* [len(fr.face_locations(rgb))] *)
  face_encodings : list Encoding   (* [fr.face_encodings(rgb)] *)
}.

(** What reading one file of the faces directory gives. *)
Inductive ReadResult :=
| ReadRaises                        (* an exception inside the per-file [try] *)
| ReadNone                          (* [cv2.imread] returned [None] *)
| ReadImage (encs : list Encoding). (* [fr.face_encodings(rgb_image)] *)

(** The faces directory at the time of a refresh. [listdir = None] is
    [os.listdir] raising. *)
Record FileSystem := {
  dir_exists : bool;
  listdir : option (list (string * ReadResult))
}.

(** ** services/face_recognition_service.py *)

Module FaceRecognitionService.

(** A value of [_face_cache]: [{'encoding': ..., 'file_path': ...}]. *)
Record CacheEntry := {
  encoding : Encoding;
  file_path : string
}.

(** The fields of the service object. *)
Record t := {
  faces_dir : string;
  tolerance : Q;
  _face_cache : PyDict.t CacheEntry;
  _last_cache_update : Q;
  _cache_ttl : Q
}.

Definition with_cache (s : t) (c : PyDict.t CacheEntry) : t :=
  {| faces_dir := faces_dir s; tolerance := tolerance s;
     _face_cache := c;
     _last_cache_update := _last_cache_update s;
     _cache_ttl := _cache_ttl s |}.

Definition with_cache_at (s : t) (c : PyDict.t CacheEntry) (now : Q) : t :=
  {| faces_dir := faces_dir s; tolerance := tolerance s;
     _face_cache := c;
     _last_cache_update := now;
     _cache_ttl := _cache_ttl s |}.

(** The result dict of [recognize_face]. *)
Record Recognition := {
  r_filename : string;
  r_file_path : string;
  r_confidence : Q
}.

Definition image_suffixes : list string := [".png"; ".jpg"; ".jpeg"]%string.

(** One turn of the [for filename in os.listdir(...)] loop. *)
Definition cache_file (dir : string) (cache : PyDict.t CacheEntry)
    (item : string * ReadResult) : PyDict.t CacheEntry :=
  let (filename, read) := item in
  if Py.endswith_any (Py.lower filename) image_suffixes then
    match read with
    | ReadImage (e :: _) =>
        PyDict.set cache filename
          {| encoding := e; file_path := Py.path_join dir filename |}
    | ReadImage [] => cache
    | ReadNone => cache
    | ReadRaises => cache
    end
  else cache.

(** [_update_face_cache], run at clock reading [now]. *)
Definition _update_face_cache (s : t) (now : Q) (fs : FileSystem) : t :=
  if Py.ltb (now - _last_cache_update s) (_cache_ttl s) then s
  else
    let cleared := with_cache s PyDict.empty in
    if negb (dir_exists fs) then cleared
    else
      match listdir fs with
      | None => cleared
      | Some files =>
          with_cache_at s
            (fold_left (cache_file (faces_dir s)) files PyDict.empty) now
      end.

(** [__init__]. *)
Definition init (dir : string) (tol : Q) (now : Q) (fs : FileSystem) : t :=
  _update_face_cache
    {| faces_dir := dir; tolerance := tol; _face_cache := PyDict.empty;
       _last_cache_update := 0; _cache_ttl := 300 |} now fs.

Definition validate_image (img : RawImage) : bool :=
  match pil_format img with
  | None => false
  | Some OtherFormat => false
  | Some _ =>
      if (10 * 1024 * 1024 <? nbytes img)%Z then false
      else if ((4096 <? width img) || (4096 <? height img))%Z then false
      else true
  end.

(** [f"{int(time.time())}_{os.getpid()}.jpg"]. *)
Definition unique_filename (now : Q) (pid : Z) : string :=
  (Py.str_of_int (Py.int_of_float now) ++ "_"
     ++ Py.str_of_int pid ++ ".jpg")%string.

(** [detect_faces], run at clock reading [now] in process [pid]. *)
Definition detect_faces (s : t) (now : Q) (pid : Z) (img : RawImage)
    : t * option string :=
  if negb (validate_image img) then (s, None)
  else if negb (imdecode_ok img) then (s, None)
  else
    match face_locations img, face_encodings img with
    | 1%nat, [e] =>
        let filename := unique_filename now pid in
        let path := Py.path_join (faces_dir s) filename in
        (with_cache s
           (PyDict.set (_face_cache s) filename
              {| encoding := e; file_path := path |}),
         Some filename)
    | _, _ => (s, None)
    end.

Definition get_face_encoding (img : RawImage) : option Encoding :=
  if negb (validate_image img) then None
  else if negb (imdecode_ok img) then None
  else
    match face_encodings img with
    | [] => None
    | e :: _ => Some e
    end.

Section Matcher.
Variable sqrtf : Q -> Q.

(** The [for filename, face_data in self._face_cache.items()] loop. *)
Fixpoint scan (cache : PyDict.t CacheEntry) (input_encoding : Encoding)
    (tol : Q) : option Recognition :=
  match cache with
  | [] => None
  | (filename, face_data) :: rest =>
      match Numpy.compare_faces sqrtf (encoding face_data)
              input_encoding tol with
      | Some true =>
          match Numpy.face_distance sqrtf (encoding face_data)
                  input_encoding with
          | Some distance =>
              Some {| r_filename := filename;
                      r_file_path := file_path face_data;
                      r_confidence := 1 - distance |}
          | None => scan rest input_encoding tol
          end
      | Some false => scan rest input_encoding tol
      | None => scan rest input_encoding tol
      end
  end.

Definition recognize_face (s : t) (now : Q) (fs : FileSystem)
    (img : RawImage) : t * option Recognition :=
  if negb (validate_image img) then (s, None)
  else
    let s' := _update_face_cache s now fs in
    if negb (imdecode_ok img) then (s', None)
    else
      match face_encodings img with
      | [] => (s', None)
      | input_encoding :: _ =>
          (s', scan (_face_cache s') input_encoding (tolerance s'))
      end.
End Matcher.

Definition get_cache_stats (s : t) : nat * Q * Q :=
  (PyDict.len (_face_cache s), _last_cache_update s, _cache_ttl s).

End FaceRecognitionService.


(** ** models.py *)

Module FaceImage.
(** A row of [face_images]. [encoding_data] holds the JSON text of the
    encoding in the source; the embedding keeps the vector. [is_primary] has
    the column default [False]; [created_at] is not modelled. *)
Record t := {
  id : Z;
  user_id : Z;
  file_path : string;
  encoding_data : Encoding;
  is_primary : bool
}.
End FaceImage.

Module User.
Record t := {
  id : Z;
  username : string
}.
End User.

(** ** repositories/face_image_repository.py

    The table is the list of its rows in insertion order; every call
    commits, so the list is the durable state. Database failures are not
    modelled. *)

Module FaceImageRepository.

Definition find_by_user_id (rows : list FaceImage.t) (user_id : Z)
  : list FaceImage.t :=
  filter (fun r => (FaceImage.user_id r =? user_id)%Z) rows.

Definition find_by_id (rows : list FaceImage.t) (image_id : Z)
  : option FaceImage.t :=
  find (fun r => (FaceImage.id r =? image_id)%Z) rows.

(** The integer primary key the database assigns on insert. *)
Definition next_id (rows : list FaceImage.t) : Z :=
  1 + fold_right (fun r m => Z.max (FaceImage.id r) m) 0%Z rows.

(** [create]: [FaceImage(user_id=..., file_path=..., encoding_data=...)]
    added and committed; the row gets its key and the column defaults. *)
Definition create (rows : list FaceImage.t) (user_id : Z)
    (file_path : string) (encoding_data : Encoding)
  : list FaceImage.t * FaceImage.t :=
  let row := {| FaceImage.id := next_id rows;
                FaceImage.user_id := user_id;
                FaceImage.file_path := file_path;
                FaceImage.encoding_data := encoding_data;
                FaceImage.is_primary := false |} in
  ((rows ++ [row])%list, row).

Definition delete (rows : list FaceImage.t) (face_image : FaceImage.t)
  : list FaceImage.t :=
  filter (fun r => negb (FaceImage.id r =? FaceImage.id face_image)%Z) rows.

Definition find_by_file_path (rows : list FaceImage.t) (file_path : string)
  : option FaceImage.t :=
  find (fun r => String.eqb (FaceImage.file_path r) file_path) rows.

End FaceImageRepository.

(** ** services/face_service.py *)

Module FaceService.

(** The service with its two collaborators' states. *)
Record t := {
  face_recognition_service : FaceRecognitionService.t;
  face_image_repository : list FaceImage.t
}.

(** The result dicts of [register_face]. *)
Inductive RegisterResult :=
| RegisterOk (id : Z) (filename file_path : string)
| RegisterError (error : string).

Definition register_success (r : RegisterResult) : bool :=
  match r with RegisterOk _ _ _ => true | RegisterError _ => false end.

(** The result dicts of [recognize_face]. *)
Inductive RecognizeResult :=
| RecognizeOk (user_id : Z) (confidence : Q) (filename : string)
| RecognizeError (error : string).

Definition register_face (s : t) (user_id : Z) (now : Q) (pid : Z)
    (image_data : RawImage) : t * RegisterResult :=
  let (frs, detected) :=
    FaceRecognitionService.detect_faces (face_recognition_service s)
      now pid image_data in
  let s1 := {| face_recognition_service := frs;
               face_image_repository := face_image_repository s |} in
  match detected with
  | None => (s1, RegisterError "No face detected or multiple faces found")
  | Some EmptyString =>
      (s1, RegisterError "No face detected or multiple faces found")
  | Some filename =>
      match FaceRecognitionService.get_face_encoding image_data with
      | None => (s1, RegisterError "Could not encode face")
      | Some encoding =>
          (* [if not encoding:] on an ndarray *)
          match Numpy.ndarray_bool encoding with
          | None => (s1, RegisterError "Face registration failed")
          | Some false => (s1, RegisterError "Could not encode face")
          | Some true =>
              let (rows, created_face) :=
                FaceImageRepository.create (face_image_repository s)
                  user_id ("faces/" ++ filename)%string encoding in
              ({| face_recognition_service := frs;
                  face_image_repository := rows |},
               RegisterOk (FaceImage.id created_face) filename
                 (FaceImage.file_path created_face))
          end
      end
  end.

Definition get_user_faces (s : t) (user_id : Z) : list FaceImage.t :=
  FaceImageRepository.find_by_user_id (face_image_repository s) user_id.

Section Recognize.
Variable sqrtf : Q -> Q.

Definition recognize_face (s : t) (now : Q) (fs : FileSystem)
    (image_data : RawImage) : t * RecognizeResult :=
  let (frs, recognition_result) :=
    FaceRecognitionService.recognize_face sqrtf
      (face_recognition_service s) now fs image_data in
  let s1 := {| face_recognition_service := frs;
               face_image_repository := face_image_repository s |} in
  match recognition_result with
  | None => (s1, RecognizeError "Face not recognized")
  | Some r =>
      match FaceImageRepository.find_by_file_path (face_image_repository s)
              (FaceRecognitionService.r_file_path r) with
      | None => (s1, RecognizeError "Face not found in database")
      | Some face_image =>
          (s1, RecognizeOk (FaceImage.user_id face_image)
                 (FaceRecognitionService.r_confidence r)
                 (FaceRecognitionService.r_filename r))
      end
  end.
End Recognize.

(** The result dicts of [delete_face_image]. *)
Inductive DeleteResult :=
| DeleteOk
| DeleteError (error : string).

Definition delete_face_image (s : t) (image_id user_id : Z)
  : t * DeleteResult :=
  match FaceImageRepository.find_by_id (face_image_repository s) image_id with
  | None => (s, DeleteError "Face image not found")
  | Some face_image =>
      if negb (FaceImage.user_id face_image =? user_id)%Z then
        (s, DeleteError "Access denied")
      else
        ({| face_recognition_service := face_recognition_service s;
            face_image_repository :=
              FaceImageRepository.delete (face_image_repository s)
                face_image |},
         DeleteOk)
  end.

End FaceService.

(** ** services/error_handler.py *)

Module ErrorHandler.

(** A JSON body with its HTTP status. *)
Inductive Body :=
| ErrorDetails (error : string) (details : list string)
| ErrorMessage (error message : string)
| RegistrationDone (message : string) (images_processed : nat) (user_id : Z)
| FaceRecognized (message : string) (user : User.t) (confidence : Q)
    (filename : string).

Definition Response : Type := Body * nat.

Definition status (r : Response) : nat := snd r.

Definition handle_validation_error (errors : list string) : Response :=
  (ErrorDetails "Validation failed" errors, 400%nat).

Definition handle_authentication_error : Response :=
  (ErrorMessage "Unauthorized" "Authentication required", 401%nat).

Definition handle_not_found_error (message : string) : Response :=
  (ErrorMessage "Not found" message, 404%nat).

Definition handle_server_error (message : string) : Response :=
  (ErrorMessage "Internal server error" message, 500%nat).

Definition handle_conflict_error (message : string) : Response :=
  (ErrorMessage "Conflict" message, 409%nat).

Definition handle_authorization_error (message : string) : Response :=
  (ErrorMessage "Forbidden" message, 403%nat).

(** [jsonify(...)] of each body, as a dict. *)
Definition jsonify (b : Body) : PyDict.t PyValue.t :=
  match b with
  | ErrorDetails error details =>
      [("error", PyValue.VStr error);
       ("details", PyValue.VList (map PyValue.VStr details))]%string
  | ErrorMessage error message =>
      [("error", PyValue.VStr error);
       ("message", PyValue.VStr message)]%string
  | RegistrationDone message images_processed user_id =>
      [("message", PyValue.VStr message);
       ("images_processed", PyValue.VInt (Z.of_nat images_processed));
       ("user_id", PyValue.VInt user_id)]%string
  | FaceRecognized message user confidence filename =>
      [("message", PyValue.VStr message);
       ("user",
        PyValue.VDict
          [("id", PyValue.VInt (User.id user));
           ("username", PyValue.VStr (User.username user))]);
       ("confidence", PyValue.VFloat confidence);
       ("filename", PyValue.VStr filename)]%string
  end.

End ErrorHandler.

(** ** routes/face.py *)

Module Routes.

(** One element of the [images] list (or the [image] field): whether
    [validate_base64_image] accepts it, and the bytes it decodes to. *)
Record Upload := {
  base64_valid : bool;
  image : RawImage
}.

(** The JSON body of [/register]. *)
Inductive RegisterData :=
| RegisterNotADict
| RegisterMissingImages
| RegisterImagesNotAList
| RegisterImages (images : list Upload).

(** The JSON body of [/recognize]. *)
Inductive RecognizeData :=
| RecognizeNotADict
| RecognizeMissingImage
| RecognizeImage (image_data : Upload).

(** [current_app]: the services, the users table, the configuration and
    the process id. *)
Record App := {
  face_service : FaceService.t;
  users : list User.t;
  MAX_IMAGES_PER_USER : Z;
  pid : Z
}.

Definition with_face_service (app : App) (s : FaceService.t) : App :=
  {| face_service := s; users := users app;
     MAX_IMAGES_PER_USER := MAX_IMAGES_PER_USER app; pid := pid app |}.

Definition get_user_by_id (app : App) (user_id : Z) : option User.t :=
  find (fun u => (User.id u =? user_id)%Z) (users app).

Definition len_str {A : Type} (l : list A) : string :=
  Py.str_of_int (Z.of_nat (List.length l)).

(** The [for i, image_data in enumerate(images)] loop of [register_face];
    [clock i] is the clock reading while image [i] is processed. *)
Fixpoint register_images (s : FaceService.t) (user_id pid : Z)
    (clock : nat -> Q) (i : nat) (images : list Upload)
    (successful_images : nat) : FaceService.t * nat :=
  match images with
  | [] => (s, successful_images)
  | image_data :: rest =>
      if negb (base64_valid image_data) then
        register_images s user_id pid clock (S i) rest successful_images
      else
        let (s1, result) :=
          FaceService.register_face s user_id (clock i) pid
            (image image_data) in
        if FaceService.register_success result then
          register_images s1 user_id pid clock (S i) rest
            (S successful_images)
        else
          register_images s1 user_id pid clock (S i) rest successful_images
  end.

Definition register_face (app : App) (session_user_id : option Z)
    (data : RegisterData) (clock : nat -> Q) : App * ErrorHandler.Response :=
  match session_user_id with
  | None => (app, ErrorHandler.handle_authentication_error)
  | Some session_user =>
      match data with
      | RegisterNotADict =>
          (app, ErrorHandler.handle_validation_error ["Invalid JSON data"%string])
      | RegisterMissingImages =>
          (app, ErrorHandler.handle_validation_error
                  ["Missing required fields: images"%string])
      | RegisterImagesNotAList =>
          (app, ErrorHandler.handle_validation_error
                  ["Images must be a list"%string])
      | RegisterImages images =>
          let max_images := MAX_IMAGES_PER_USER app in
          if (Z.of_nat (List.length images) <? 3)%Z then
            (app, ErrorHandler.handle_validation_error
                    [("At least 3 images required, got "
                        ++ len_str images)%string])
          else if (max_images <? Z.of_nat (List.length images))%Z then
            (app, ErrorHandler.handle_validation_error
                    [("Maximum " ++ Py.str_of_int max_images
                        ++ " images allowed, got " ++ len_str images)%string])
          else
            match get_user_by_id app session_user with
            | None => (app, ErrorHandler.handle_not_found_error "User not found")
            | Some user =>
                match FaceService.get_user_faces (face_service app)
                        (User.id user) with
                | _ :: _ =>
                    (app, ErrorHandler.handle_conflict_error
                            "Face images already registered for this user")
                | [] =>
                    let (s, successful_images) :=
                      register_images (face_service app) (User.id user)
                        (pid app) clock 0 images 0 in
                    let app' := with_face_service app s in
                    if (successful_images <? 3)%nat then
                      (app', ErrorHandler.handle_validation_error
                               [("Only "
                                   ++ Py.str_of_int (Z.of_nat successful_images)
                                   ++ " valid images processed, minimum 3 required")%string])
                    else
                      (app', (ErrorHandler.RegistrationDone
                                "Face registration successful"
                                successful_images (User.id user), 201%nat))
                end
            end
      end
  end.

Section Recognize.
Variable sqrtf : Q -> Q.

Definition recognize_face (app : App) (data : RecognizeData) (now : Q)
    (fs : FileSystem) : App * ErrorHandler.Response :=
  match data with
  | RecognizeNotADict =>
      (app, ErrorHandler.handle_validation_error ["Invalid JSON data"%string])
  | RecognizeMissingImage =>
      (app, ErrorHandler.handle_validation_error
              ["Missing required fields: image"%string])
  | RecognizeImage image_data =>
      if negb (base64_valid image_data) then
        (app, ErrorHandler.handle_validation_error
                ["Invalid image format"%string])
      else
        let (s, result) :=
          FaceService.recognize_face sqrtf (face_service app) now fs
            (image image_data) in
        let app' := with_face_service app s in
        match result with
        | FaceService.RecognizeError _ =>
            (app', ErrorHandler.handle_not_found_error "Face not recognized")
        | FaceService.RecognizeOk user_id confidence filename =>
            match get_user_by_id app user_id with
            | None =>
                (app', ErrorHandler.handle_not_found_error "User not found")
            | Some user =>
                (app', (ErrorHandler.FaceRecognized "Face recognized" user
                          confidence filename, 200%nat))
            end
        end
  end.
End Recognize.

(** A JSON response: the body and the HTTP status. *)
Definition JsonResponse : Type := PyDict.t PyValue.t * nat.

Definition json_of (r : ErrorHandler.Response) : JsonResponse :=
  (ErrorHandler.jsonify (fst r), snd r).

(** [DELETE /images/<image_id>]. *)
Definition delete_face_image (app : App) (session_user_id : option Z)
    (image_id : Z) : App * JsonResponse :=
  match session_user_id with
  | None => (app, json_of ErrorHandler.handle_authentication_error)
  | Some session_user =>
      match get_user_by_id app session_user with
      | None =>
          (app, json_of (ErrorHandler.handle_not_found_error "User not found"))
      | Some user =>
          let (s, result) :=
            FaceService.delete_face_image (face_service app) image_id
              (User.id user) in
          let app' := with_face_service app s in
          match result with
          | FaceService.DeleteError error =>
              if Py.contains error "Face image not found" then
                (app', json_of (ErrorHandler.handle_not_found_error error))
              else if Py.contains error "Access denied" then
                (app', json_of (ErrorHandler.handle_authorization_error error))
              else
                (app', json_of (ErrorHandler.handle_validation_error [error]))
          | FaceService.DeleteOk =>
              (app',
               ([("message"%string,
                  PyValue.VStr "Face image deleted successfully")],
                200%nat))
          end
      end
  end.

(** The [for face_image in existing_faces['face_images']] loop of
    [update_face_images]: each listed face is deleted through the
    service, results ignored. *)
Fixpoint delete_existing (s : FaceService.t) (user_id : Z)
    (face_images : list FaceImage.t) : FaceService.t :=
  match face_images with
  | [] => s
  | face_image :: rest =>
      delete_existing
        (fst (FaceService.delete_face_image s (FaceImage.id face_image)
                user_id))
        user_id rest
  end.

(** [POST /update]. *)
Definition update_face_images (app : App) (session_user_id : option Z)
    (data : RegisterData) (clock : nat -> Q) : App * ErrorHandler.Response :=
  match session_user_id with
  | None => (app, ErrorHandler.handle_authentication_error)
  | Some session_user =>
      match data with
      | RegisterNotADict =>
          (app, ErrorHandler.handle_validation_error ["Invalid JSON data"%string])
      | RegisterMissingImages =>
          (app, ErrorHandler.handle_validation_error
                  ["Missing required fields: images"%string])
      | RegisterImagesNotAList =>
          (app, ErrorHandler.handle_validation_error
                  ["Images must be a list"%string])
      | RegisterImages images =>
          let max_images := MAX_IMAGES_PER_USER app in
          if (Z.of_nat (List.length images) <? 3)%Z then
            (app, ErrorHandler.handle_validation_error
                    [("At least 3 images required, got "
                        ++ len_str images)%string])
          else if (max_images <? Z.of_nat (List.length images))%Z then
            (app, ErrorHandler.handle_validation_error
                    [("Maximum " ++ Py.str_of_int max_images
                        ++ " images allowed, got " ++ len_str images)%string])
          else
            match get_user_by_id app session_user with
            | None => (app, ErrorHandler.handle_not_found_error "User not found")
            | Some user =>
                let existing_faces :=
                  FaceService.get_user_faces (face_service app)
                    (User.id user) in
                let s0 :=
                  delete_existing (face_service app) (User.id user)
                    existing_faces in
                let (s, successful_images) :=
                  register_images s0 (User.id user) (pid app) clock 0
                    images 0 in
                let app' := with_face_service app s in
                if (successful_images <? 3)%nat then
                  (app', ErrorHandler.handle_validation_error
                           [("Only "
                               ++ Py.str_of_int (Z.of_nat successful_images)
                               ++ " valid images processed, minimum 3 required")%string])
                else
                  (app', (ErrorHandler.RegistrationDone
                            "Face images updated successfully"
                            successful_images (User.id user), 200%nat))
            end
      end
  end.

End Routes.


(** ** utils/validators.py *)

Module InputValidator.

(** [field not in data or data[field] is None]. *)
Definition field_missing (data : PyDict.t PyValue.t) (field : string)
  : bool :=
  match PyDict.get data field with
  | None => true
  | Some PyValue.VNone => true
  | Some _ => false
  end.

(** [validate_json_data]: the pair of [result['valid']] and
    [result['errors']]. *)
Definition validate_json_data (data : PyValue.t)
    (required_fields : list string) : bool * list string :=
  match data with
  | PyValue.VDict d =>
      let missing_fields := filter (field_missing d) required_fields in
      let errors :=
        match missing_fields with
        | [] => []
        | _ :: _ =>
            [("Missing required fields: "
                ++ Py.join ", " missing_fields)%string]
        end in
      ((List.length errors =? 0)%nat, errors)
  | _ => (false, ["Invalid JSON data"%string])
  end.

End InputValidator.


(** * Vocabulary of the properties *)

Module Matcher.
Import FaceRecognitionService.

Section Vocabulary.
Variable sqrtf : Q -> Q.

(** The candidate is compared without an exception and [matches[0]] is
    true. *)
Definition matching (probe : Encoding) (tol : Q)
    (kv : string * CacheEntry) : bool :=
  match Numpy.compare_faces sqrtf (encoding (snd kv)) probe tol with
  | Some true => true
  | Some false => false
  | None => false
  end.

(** The dict [recognize_face] returns for a candidate. *)
Definition result_for (probe : Encoding) (kv : string * CacheEntry)
  : option Recognition :=
  option_map
    (fun distance =>
       {| r_filename := fst kv;
          r_file_path := file_path (snd kv);
          r_confidence := 1 - distance |})
    (Numpy.face_distance sqrtf (encoding (snd kv)) probe).

(** Some candidate of the cache is within tolerance of the probe. *)
Definition has_match (cache : PyDict.t CacheEntry) (probe : Encoding)
    (tol : Q) : Prop :=
  exists fn fd d,
    In (fn, fd) cache /\
    Numpy.face_distance sqrtf (encoding fd) probe = Some d /\ d <= tol.

(** Best-of selection as the specification words it (without the
    tie-break): when some candidate is within tolerance, the scan returns a
    candidate within tolerance whose distance is minimal among all of
    them. *)
Definition best_of_selection (cache : PyDict.t CacheEntry)
    (probe : Encoding) (tol : Q) : Prop :=
  has_match cache probe tol ->
  exists fn fd d,
    In (fn, fd) cache /\
    Numpy.face_distance sqrtf (encoding fd) probe = Some d /\ d <= tol /\
    (forall fn' fd' d',
        In (fn', fd') cache ->
        Numpy.face_distance sqrtf (encoding fd') probe = Some d' ->
        d' <= tol -> d <= d') /\
    scan sqrtf cache probe tol =
      Some {| r_filename := fn; r_file_path := file_path fd;
              r_confidence := 1 - d |}.

(** Order independence as the specification words it: the scan gives the
    same result on every permutation of the snapshot. *)
Definition order_independent (cache : PyDict.t CacheEntry)
    (probe : Encoding) (tol : Q) : Prop :=
  forall cache', Permutation cache cache' ->
    scan sqrtf cache' probe tol = scan sqrtf cache probe tol.

(** The confidence range as the specification words it: every result of
    the scan carries a confidence between 0 and 1. *)
Definition confidence_in_unit_interval (cache : PyDict.t CacheEntry)
    (probe : Encoding) (tol : Q) : Prop :=
  forall r, scan sqrtf cache probe tol = Some r ->
    0 <= r_confidence r /\ r_confidence r <= 1.

End Vocabulary.

End Matcher.

Module Refresh.
Import FaceRecognitionService.

(** The cache is due for a rebuild at clock reading [now]: the test
    [current_time - self._last_cache_update < self._cache_ttl] fails. *)
Definition stale (s : t) (now : Q) : bool :=
  negb (Py.ltb (now - _last_cache_update s) (_cache_ttl s)).

(** A failed enumeration as the specification words it: when the listing
    raises during a refresh, the cache holds what it held before. *)
Definition previous_content_retained (s : t) (now : Q) (fs : FileSystem)
  : Prop :=
  listdir fs = None ->
  _face_cache (_update_face_cache s now fs) = _face_cache s.

(** Where an entry of a rebuilt cache comes from: a listed file with an
    image suffix, read as an image with at least one face. *)
Definition from_listing (dir : string) (files : list (string * ReadResult))
    (kv : string * CacheEntry) : Prop :=
  Py.endswith_any (Py.lower (fst kv)) image_suffixes = true /\
  file_path (snd kv) = Py.path_join dir (fst kv) /\
  exists encs, In (fst kv, ReadImage (encoding (snd kv) :: encs)) files.

(** The faces directory when [os.listdir] answers [files]. *)
Definition listing (files : list (string * ReadResult)) : FileSystem :=
  {| dir_exists := true; listdir := Some files |}.

End Refresh.

Module Enrollment.
Import FaceRecognitionService.

(** The image gets through [detect_faces]: it validates, decodes, and shows
    exactly one face. *)
Definition passes_detection (img : RawImage) : bool :=
  (validate_image img && imdecode_ok img
   && (face_locations img =? 1)%nat
   && (List.length (face_encodings img) =? 1)%nat)%bool.

(** Number of rows of [rows] that belong to [user_id] and are marked
    primary. *)
Definition primary_count (rows : list FaceImage.t) (user_id : Z) : nat :=
  List.length
    (filter FaceImage.is_primary
       (FaceImageRepository.find_by_user_id rows user_id)).

(** The upload gets as far as the cache write of [detect_faces]: the
    route accepts its base64 text and the image passes detection. *)
Definition detected (u : Routes.Upload) : bool :=
  (Routes.base64_valid u && passes_detection (Routes.image u))%bool.

(** The entry [detect_faces] writes for the image, saved as [filename]
    under [dir]. *)
Definition detected_entry (dir filename : string) (img : RawImage)
  : CacheEntry :=
  {| encoding := hd [] (face_encodings img);
     file_path := Py.path_join dir filename |}.

(** The cache write made while upload [u] is processed at clock reading
    [now], if it is detected. *)
Definition upsert_detected (dir : string) (pid : Z) (now : Q)
    (u : Routes.Upload) (c : PyDict.t CacheEntry) : PyDict.t CacheEntry :=
  if detected u then
    PyDict.set c (unique_filename now pid)
      (detected_entry dir (unique_filename now pid) (Routes.image u))
  else c.

(** The cache writes of a whole batch, image [i] first. *)
Fixpoint batch_upserts (dir : string) (pid : Z) (clock : nat -> Q) (i : nat)
    (images : list Routes.Upload) (c : PyDict.t CacheEntry)
  : PyDict.t CacheEntry :=
  match images with
  | [] => c
  | u :: rest =>
      batch_upserts dir pid clock (S i) rest
        (upsert_detected dir pid (clock i) u c)
  end.



(** The rows and the cache entries held by the application. *)
Definition rows (app : Routes.App) : list FaceImage.t :=
  FaceService.face_image_repository (Routes.face_service app).

Definition cache (app : Routes.App) : PyDict.t CacheEntry :=
  _face_cache (FaceService.face_recognition_service (Routes.face_service app)).

(** All-or-nothing enrollment as the specification words it: when
    [/register] answers that too few images were valid, no row has been
    persisted and no cache entry has been written. *)
Definition all_or_nothing (app : Routes.App) (session_user : Z)
    (images : list Routes.Upload) (clock : nat -> Q) : Prop :=
  forall app' details,
    Routes.register_face app (Some session_user)
      (Routes.RegisterImages images) clock
      = (app', ErrorHandler.handle_validation_error details) ->
    rows app' = rows app /\ cache app' = cache app.

End Enrollment.

Module Table.

(** The primary keys of the table are pairwise distinct. *)
Definition unique_ids (rows : list FaceImage.t) : Prop :=
  NoDup (map FaceImage.id rows).

(** The row belongs to [user_id]. *)
Definition owned_by (user_id : Z) (row : FaceImage.t) : bool :=
  (FaceImage.user_id row =? user_id)%Z.

(** A row as [FaceService.register_face] creates it for [user_id]. *)
Definition enrolled_for (user_id : Z) (row : FaceImage.t) : Prop :=
  FaceImage.user_id row = user_id /\
  FaceImage.is_primary row = false /\
  String.prefix "faces/" (FaceImage.file_path row) = true.

End Table.

Module Paths.
Import FaceRecognitionService.

(** Every cache entry carries the path the service writes for its key:
    the faces directory joined with the filename. Both writers of the
    cache, [_update_face_cache] and [detect_faces], write entries of this
    form. *)
Definition cache_paths_joined (s : t) : Prop :=
  forall filename entry,
    In (filename, entry) (_face_cache s) ->
    file_path entry = Py.path_join (faces_dir s) filename.

(** Every row carries a path of the form [FaceService.register_face]
    stores: ["faces/" + filename]. *)
Definition row_paths_relative (rows : list FaceImage.t) : Prop :=
  forall row, In row rows ->
    String.prefix "faces/" (FaceImage.file_path row) = true.

End Paths.

Module Engine.




Section Run.
Variable sqrtf : Q -> Q.


End Run.

End Engine.

(** * Sample data

    Concrete caches, images and requests on which the model is run. The
    vectors have one component, so that the Euclidean distance to the probe
    [[0]] is the absolute value of the component and [Numpy.exact_sqrt]
    computes it exactly. *)

Module Samples.
Import FaceRecognitionService.

Definition entry (filename : string) (e : Encoding) : string * CacheEntry :=
  (filename,
   {| encoding := e; file_path := Py.path_join "faces" filename |}).

Definition probe : Encoding := [0].

(** Two enrolled faces at distances 0.5 and 0.3 of the probe, the farther
    one cached first. *)
Definition far_first : PyDict.t CacheEntry :=
  [entry "a.jpg" [1#2]; entry "b.jpg" [3#10]].

(** A two-component vector cached before a three-component one. *)
Definition mixed_lengths : PyDict.t CacheEntry :=
  [entry "a.jpg" [0; 0]; entry "b.jpg" [0; 0; 0]].

Definition probe3 : Encoding := [0; 0; 0].

(** One enrolled face at distance 1.5 of the probe. *)
Definition distant : PyDict.t CacheEntry := [entry "a.jpg" [3#2]].

(** One enrolled face at distance exactly 0.6 of the probe. *)
Definition on_threshold : PyDict.t CacheEntry := [entry "a.jpg" [6#10]].

Definition service (cache : PyDict.t CacheEntry) (tol : Q) : t :=
  {| faces_dir := "faces"; tolerance := tol; _face_cache := cache;
     _last_cache_update := 0; _cache_ttl := 300 |}.

(** A directory whose listing raises. *)
Definition unreadable_dir : FileSystem :=
  {| dir_exists := true; listdir := None |}.

(** A JPEG in which the libraries find the faces [encs]. *)
Definition photo (faces : nat) (encs : list Encoding) : RawImage :=
  {| pil_format := Some JPEG; nbytes := 20000; width := 640; height := 480;
     imdecode_ok := true; face_locations := faces; face_encodings := encs |}.

Definition one_face (x : Q) : RawImage := photo 1 [[x]].

Definition no_face : RawImage := photo 0 [].

Definition upload (img : RawImage) : Routes.Upload :=
  {| Routes.base64_valid := true; Routes.image := img |}.

Definition ann : User.t := {| User.id := 7; User.username := "ann" |}.

Definition app (cache : PyDict.t CacheEntry) (rows : list FaceImage.t)
  : Routes.App :=
  {| Routes.face_service :=
       {| FaceService.face_recognition_service := service cache (6#10);
          FaceService.face_image_repository := rows |};
     Routes.users := [ann];
     Routes.MAX_IMAGES_PER_USER := 5;
     Routes.pid := 4242 |}.

(** Image [i] of a batch is processed at second [1000 + i]. *)
Definition clock (i : nat) : Q := inject_Z (1000 + Z.of_nat i).

(** Five uploads of which two show a face. *)
Definition two_of_five : list Routes.Upload :=
  [upload (one_face 1); upload no_face; upload (one_face 2);
   upload no_face; upload no_face].

(** Three uploads that all show one face. *)
Definition three_good : list Routes.Upload :=
  [upload (one_face 1); upload (one_face 2); upload (one_face 3)].

(** A JPEG with one face whose encoding has two components. *)
Definition real_face (x y : Q) : RawImage := photo 1 [[x; y]].

(** Five uploads of which two show a face, with encodings of more than
    one component. *)
Definition two_real_of_five : list Routes.Upload :=
  [upload (real_face 1 2); upload no_face; upload (real_face 3 4);
   upload no_face; upload no_face].


(** A row of the table, for [user_id], stored under [path]. *)
Definition row (id user_id : Z) (path : string) : FaceImage.t :=
  {| FaceImage.id := id; FaceImage.user_id := user_id;
     FaceImage.file_path := path; FaceImage.encoding_data := [1];
     FaceImage.is_primary := false |}.

(** Two faces of user 7 and one of user 8. *)
Definition three_rows : list FaceImage.t :=
  [row 1 7 "faces/a.jpg"; row 2 8 "faces/b.jpg"; row 3 7 "faces/c.jpg"].

Definition bob : User.t := {| User.id := 8; User.username := "bob" |}.

End Samples.

(** * Facts about the matcher scan *)

Module MatcherFacts.
Import FaceRecognitionService Matcher.

Section Lemmas.
Variable sqrtf : Q -> Q.

Lemma compare_faces_true (known probe : Encoding) (tol : Q) :
  Numpy.compare_faces sqrtf known probe tol = Some true <->
  exists d, Numpy.face_distance sqrtf known probe = Some d /\ d <= tol.
Proof.
  unfold Numpy.compare_faces, Py.leb.
  destruct (Numpy.face_distance sqrtf known probe) as [d|]; simpl; split.
  - intros H. injection H as H. exists d. split; [reflexivity|].
    now apply Qle_bool_iff.
  - intros [d' [E H]]. injection E as <-. f_equal. now apply Qle_bool_iff.
  - discriminate.
  - intros [d' [E _]]. discriminate.
Qed.

Lemma compare_faces_false (known probe : Encoding) (tol : Q) :
  Numpy.compare_faces sqrtf known probe tol = Some false <->
  exists d, Numpy.face_distance sqrtf known probe = Some d /\ tol < d.
Proof.
  unfold Numpy.compare_faces, Py.leb.
  destruct (Numpy.face_distance sqrtf known probe) as [d|]; simpl; split.
  - intros H. injection H as H. exists d. split; [reflexivity|].
    apply Qnot_le_lt. intros L. apply Qle_bool_iff in L. congruence.
  - intros [d' [E H]]. injection E as <-. f_equal.
    destruct (Qle_bool d tol) eqn:L; [|reflexivity].
    apply Qle_bool_iff in L. exfalso. now apply (Qlt_not_le tol d).
  - discriminate.
  - intros [d' [E _]]. discriminate.
Qed.

Lemma compare_faces_raises (known probe : Encoding) (tol : Q) :
  Numpy.compare_faces sqrtf known probe tol = None <->
  Numpy.broadcast_sub known probe = None.
Proof.
  unfold Numpy.compare_faces, Numpy.face_distance.
  destruct (Numpy.broadcast_sub known probe); simpl; split;
    congruence.
Qed.

Lemma matching_true (probe : Encoding) (tol : Q) (kv : string * CacheEntry) :
  matching sqrtf probe tol kv = true <->
  exists d,
    Numpy.face_distance sqrtf (encoding (snd kv)) probe = Some d /\ d <= tol.
Proof.
  rewrite <- compare_faces_true. unfold matching.
  destruct (Numpy.compare_faces sqrtf (encoding (snd kv)) probe tol)
    as [[|]|]; split; congruence.
Qed.

Lemma scan_cons (kv : string * CacheEntry) (rest : PyDict.t CacheEntry)
    (probe : Encoding) (tol : Q) :
  scan sqrtf (kv :: rest) probe tol =
    if matching sqrtf probe tol kv then result_for sqrtf probe kv
    else scan sqrtf rest probe tol.
Proof.
  destruct kv as [fn fd]. unfold matching, result_for. simpl.
  destruct (Numpy.compare_faces sqrtf (encoding fd) probe tol)
    as [[|]|] eqn:C; try reflexivity.
  apply compare_faces_true in C. destruct C as [d [E _]].
  rewrite E. reflexivity.
Qed.

(** The scan is a search for the first matching entry. *)
Lemma scan_find (cache : PyDict.t CacheEntry) (probe : Encoding) (tol : Q) :
  scan sqrtf cache probe tol =
    match find (matching sqrtf probe tol) cache with
    | Some kv => result_for sqrtf probe kv
    | None => None
    end.
Proof.
  induction cache as [|kv rest IH]; [reflexivity|].
  rewrite scan_cons. simpl find.
  destruct (matching sqrtf probe tol kv); [reflexivity|exact IH].
Qed.

Lemma result_for_matching (probe : Encoding) (tol : Q)
    (kv : string * CacheEntry) :
  matching sqrtf probe tol kv = true ->
  exists d,
    Numpy.face_distance sqrtf (encoding (snd kv)) probe = Some d /\
    d <= tol /\
    result_for sqrtf probe kv =
      Some {| r_filename := fst kv; r_file_path := file_path (snd kv);
              r_confidence := 1 - d |}.
Proof.
  intros M. apply matching_true in M. destruct M as [d [E L]].
  exists d. repeat split; trivial. unfold result_for. now rewrite E.
Qed.

Lemma scan_none (cache : PyDict.t CacheEntry) (probe : Encoding) (tol : Q) :
  scan sqrtf cache probe tol = None <->
  forall kv, In kv cache -> matching sqrtf probe tol kv = false.
Proof.
  rewrite scan_find.
  destruct (find (matching sqrtf probe tol) cache) as [kv|] eqn:F; split.
  - intros R. apply find_some in F. destruct F as [_ M].
    destruct (result_for_matching _ _ _ M) as [d [_ [_ E]]]. congruence.
  - intros A. apply find_some in F. destruct F as [I M].
    rewrite (A kv I) in M. discriminate.
  - intros _ kv I. exact (find_none _ _ F kv I).
  - reflexivity.
Qed.

Lemma matching_false (probe : Encoding) (tol : Q) (kv : string * CacheEntry) :
  matching sqrtf probe tol kv = false ->
  forall d,
    Numpy.face_distance sqrtf (encoding (snd kv)) probe = Some d -> tol < d.
Proof.
  intros M d E.
  assert (C : Numpy.compare_faces sqrtf (encoding (snd kv)) probe tol
              = Some false).
  { unfold matching in M. unfold Numpy.compare_faces in *.
    rewrite E in *. simpl in *.
    destruct (Py.leb d tol); [discriminate|reflexivity]. }
  apply compare_faces_false in C. destruct C as [d' [E' L]].
  congruence.
Qed.

Lemma find_filter {A : Type} (f : A -> bool) (l : list A) :
  find f l = hd_error (filter f l).
Proof.
  induction l as [|x l IH]; [reflexivity|].
  simpl. destruct (f x); [reflexivity|exact IH].
Qed.

Lemma filter_permutation {A : Type} (f : A -> bool) (l l' : list A) :
  Permutation l l' -> Permutation (filter f l) (filter f l').
Proof.
  induction 1 as [|x l l' _ IH|x y l|l l' l'' _ IH1 _ IH2]; simpl.
  - constructor.
  - destruct (f x); [now constructor|exact IH].
  - destruct (f x), (f y); try apply Permutation_refl. constructor.
  - now apply Permutation_trans with (filter f l').
Qed.

Lemma short_permutation {A : Type} (l l' : list A) :
  (List.length l <= 1)%nat -> Permutation l l' -> l' = l.
Proof.
  destruct l as [|x [|y l]]; simpl; intros Hlen P.
  - now apply Permutation_nil.
  - now apply Permutation_length_1_inv.
  - lia.
Qed.

Lemma broadcast_sub_raises (known probe : Encoding) :
  List.length known <> List.length probe ->
  List.length known <> 1%nat -> List.length probe <> 1%nat ->
  Numpy.broadcast_sub known probe = None.
Proof.
  intros Hne Hk Hp. unfold Numpy.broadcast_sub.
  destruct (Nat.eqb_spec (List.length known) (List.length probe)) as [E|_];
    [contradiction|].
  destruct probe as [|p [|p' probe]]; destruct known as [|k [|k' known]];
    simpl in *; congruence.
Qed.

Lemma scan_app (before after : PyDict.t CacheEntry) (probe : Encoding)
    (tol : Q) :
  scan sqrtf (before ++ after) probe tol =
    match scan sqrtf before probe tol with
    | Some r => Some r
    | None => scan sqrtf after probe tol
    end.
Proof.
  induction before as [|kv before IH]; [reflexivity|].
  rewrite <- app_comm_cons, !scan_cons.
  destruct (matching sqrtf probe tol kv) eqn:M; [|exact IH].
  destruct (result_for_matching _ _ _ M) as [d [_ [_ R]]].
  now rewrite R.
Qed.

Lemma face_distance_nonneg (known probe : Encoding) (d : Q) :
  (forall x, 0 <= sqrtf x) ->
  Numpy.face_distance sqrtf known probe = Some d -> 0 <= d.
Proof.
  intros Hs. unfold Numpy.face_distance, Numpy.norm.
  destruct (Numpy.broadcast_sub known probe); simpl; [|discriminate].
  intros E. injection E as <-. apply Hs.
Qed.

End Lemmas.
End MatcherFacts.

(** * Facts about the cache rebuild *)

Module RefreshFacts.
Import FaceRecognitionService Refresh.

Lemma exact_sqrt_nonneg (x : Q) : 0 <= Numpy.exact_sqrt x.
Proof.
  unfold Numpy.exact_sqrt, Qle. simpl.
  rewrite Z.mul_1_r. apply Z.sqrt_nonneg.
Qed.

Lemma cache_file_skips (dir : string) (cache : PyDict.t CacheEntry)
    (filename : string) (r : ReadResult) :
  r = ReadRaises \/ r = ReadNone \/ r = ReadImage [] ->
  cache_file dir cache (filename, r) = cache.
Proof.
  intros [->|[->| ->]]; unfold cache_file;
    destruct (Py.endswith_any (Py.lower filename) image_suffixes);
    reflexivity.
Qed.

Lemma rebuild_skips (dir : string) (before after : list (string * ReadResult))
    (filename : string) (r : ReadResult) (cache : PyDict.t CacheEntry) :
  r = ReadRaises \/ r = ReadNone \/ r = ReadImage [] ->
  fold_left (cache_file dir) (before ++ (filename, r) :: after) cache =
  fold_left (cache_file dir) (before ++ after) cache.
Proof.
  intros Hr. rewrite !fold_left_app. cbn [fold_left].
  now rewrite (cache_file_skips dir _ filename r Hr).
Qed.

Lemma update_when_stale (s : t) (now : Q) (fs : FileSystem) :
  stale s now = true ->
  _update_face_cache s now fs =
    if negb (dir_exists fs) then with_cache s PyDict.empty
    else match listdir fs with
         | None => with_cache s PyDict.empty
         | Some files =>
             with_cache_at s
               (fold_left (cache_file (faces_dir s)) files PyDict.empty) now
         end.
Proof.
  unfold stale, _update_face_cache.
  destruct (Py.ltb (now - _last_cache_update s) (_cache_ttl s));
    [discriminate|reflexivity].
Qed.

End RefreshFacts.

(** * Facts about enrollment *)

Module EnrollmentFacts.
Import FaceRecognitionService Enrollment.

Lemma get_set_same {V : Type} (d : PyDict.t V) (k : string) (v : V) :
  PyDict.get (PyDict.set d k v) k = Some v.
Proof.
  induction d as [|[k' v'] d IH]; simpl.
  - now rewrite String.eqb_refl.
  - destruct (String.eqb k' k) eqn:E; simpl.
    + now rewrite String.eqb_refl.
    + now rewrite E.
Qed.

Lemma get_set_keeps {V : Type} (d : PyDict.t V) (k k' : string) (v : V) :
  PyDict.get d k <> None -> PyDict.get (PyDict.set d k' v) k <> None.
Proof.
  induction d as [|[k0 v0] d IH]; simpl; [congruence|].
  destruct (String.eqb k0 k') eqn:E'; simpl.
  - apply String.eqb_eq in E'. subst k0.
    destruct (String.eqb k' k); [discriminate|trivial].
  - destruct (String.eqb k0 k); [discriminate|exact IH].
Qed.

Lemma detect_faces_passes (s : t) (now : Q) (pid : Z) (img : RawImage) :
  passes_detection img = true ->
  exists e,
    detect_faces s now pid img =
      (with_cache s
         (PyDict.set (_face_cache s) (unique_filename now pid)
            {| encoding := e;
               file_path :=
                 Py.path_join (faces_dir s) (unique_filename now pid) |}),
       Some (unique_filename now pid)).
Proof.
  unfold passes_detection, detect_faces. intros H.
  apply andb_prop in H. destruct H as [H He].
  apply andb_prop in H. destruct H as [H Hl].
  apply andb_prop in H. destruct H as [Hv Hd].
  rewrite Hv, Hd. simpl.
  apply Nat.eqb_eq in Hl. rewrite Hl.
  destruct (face_encodings img) as [|e [|e' l]]; try discriminate.
  exists e. reflexivity.
Qed.

Lemma detect_faces_keeps (s : t) (now : Q) (pid : Z) (img : RawImage)
    (k : string) :
  PyDict.get (_face_cache s) k <> None ->
  PyDict.get (_face_cache (fst (detect_faces s now pid img))) k <> None.
Proof.
  intros H. unfold detect_faces.
  destruct (negb (validate_image img)); [exact H|].
  destruct (negb (imdecode_ok img)); [exact H|].
  destruct (face_locations img) as [|[|n]]; try exact H.
  destruct (face_encodings img) as [|e [|e' l]]; try exact H.
  simpl. now apply get_set_keeps.
Qed.

(** [FaceService.register_face] changes the recognition service exactly
    as its call of [detect_faces] does. *)
Lemma register_face_service (s : FaceService.t) (user_id : Z) (now : Q)
    (pid : Z) (img : RawImage) :
  FaceService.face_recognition_service
    (fst (FaceService.register_face s user_id now pid img)) =
  fst (detect_faces (FaceService.face_recognition_service s) now pid img).
Proof.
  unfold FaceService.register_face.
  destruct (detect_faces (FaceService.face_recognition_service s) now pid img)
    as [frs [[|c fn]|]]; try reflexivity.
  destruct (get_face_encoding img) as [e|]; [|reflexivity].
  destruct (Numpy.ndarray_bool e) as [[|]|]; reflexivity.
Qed.

Lemma register_images_keeps (images : list Routes.Upload) :
  forall (s : FaceService.t) (user_id pid : Z) (clock : nat -> Q) (i n : nat)
         (k : string),
    PyDict.get (_face_cache (FaceService.face_recognition_service s)) k
      <> None ->
    PyDict.get
      (_face_cache
         (FaceService.face_recognition_service
            (fst (Routes.register_images s user_id pid clock i images n)))) k
      <> None.
Proof.
  induction images as [|u images IH]; intros s user_id pid clock i n k H;
    [exact H|].
  simpl. destruct (negb (Routes.base64_valid u)); [now apply IH|].
  pose proof (register_face_service s user_id (clock i) pid (Routes.image u))
    as Es.
  destruct (FaceService.register_face s user_id (clock i) pid (Routes.image u))
    as [s1 result].
  simpl in Es.
  assert (H1 : PyDict.get
                 (_face_cache (FaceService.face_recognition_service s1)) k
               <> None)
    by (rewrite Es; now apply detect_faces_keeps).
  destruct (FaceService.register_success result); now apply IH.
Qed.

Lemma register_images_caches (images : list Routes.Upload) :
  forall (s : FaceService.t) (user_id pid : Z) (clock : nat -> Q) (i n j : nat)
         (u : Routes.Upload),
    nth_error images j = Some u ->
    Routes.base64_valid u = true ->
    passes_detection (Routes.image u) = true ->
    PyDict.get
      (_face_cache
         (FaceService.face_recognition_service
            (fst (Routes.register_images s user_id pid clock i images n))))
      (unique_filename (clock (i + j)%nat) pid) <> None.
Proof.
  induction images as [|u0 images IH];
    intros s user_id pid clock i n j u Hn Hb Hp.
  - destruct j; discriminate.
  - destruct j as [|j]; simpl in Hn.
    + injection Hn as ->. simpl. rewrite Hb. simpl.
      pose proof (register_face_service s user_id (clock i) pid
                    (Routes.image u)) as Es.
      destruct (FaceService.register_face s user_id (clock i) pid
                  (Routes.image u)) as [s1 result].
      simpl in Es.
      assert (H1 : PyDict.get
                     (_face_cache (FaceService.face_recognition_service s1))
                     (unique_filename (clock (i + 0)%nat) pid) <> None).
      { rewrite Es, Nat.add_0_r.
        destruct (detect_faces_passes
                    (FaceService.face_recognition_service s) (clock i) pid
                    _ Hp) as [e ->].
        simpl. rewrite get_set_same. discriminate. }
      destruct (FaceService.register_success result);
        now apply register_images_keeps.
    + replace (i + S j)%nat with (S i + j)%nat by lia.
      simpl.
      destruct (negb (Routes.base64_valid u0));
        [exact (IH s user_id pid clock (S i) n j u Hn Hb Hp)|].
      destruct (FaceService.register_face s user_id (clock i) pid
                  (Routes.image u0)) as [s1 result].
      destruct (FaceService.register_success result).
      * exact (IH s1 user_id pid clock (S i) (S n) j u Hn Hb Hp).
      * exact (IH s1 user_id pid clock (S i) n j u Hn Hb Hp).
Qed.

Lemma primary_count_create (rows : list FaceImage.t) (user_id : Z)
    (path : string) (e : Encoding) (owner : Z) :
  primary_count (fst (FaceImageRepository.create rows user_id path e)) owner
    = primary_count rows owner.
Proof.
  unfold primary_count, FaceImageRepository.create,
    FaceImageRepository.find_by_user_id.
  simpl. rewrite !filter_app, !length_app. simpl.
  destruct (user_id =? owner)%Z; simpl; lia.
Qed.

End EnrollmentFacts.

(** * Facts about the cache writes of a batch *)

Module BatchCacheFacts.
Import FaceRecognitionService Enrollment.

Lemma get_set_elsewhere {V : Type} (d : PyDict.t V) (k k' : string) (v : V) :
  k <> k' -> PyDict.get (PyDict.set d k v) k' = PyDict.get d k'.
Proof.
  intros Hne. induction d as [|[k0 v0] d IH]; simpl.
  - destruct (String.eqb_spec k k'); [contradiction|reflexivity].
  - destruct (String.eqb_spec k0 k) as [->|Hk]; simpl.
    + destruct (String.eqb_spec k k'); [contradiction|reflexivity].
    + destruct (String.eqb_spec k0 k'); [reflexivity|exact IH].
Qed.

Lemma detect_faces_cache (s : t) (now : Q) (pid : Z) (img : RawImage) :
  _face_cache (fst (detect_faces s now pid img)) =
    (if passes_detection img then
       PyDict.set (_face_cache s) (unique_filename now pid)
         (detected_entry (faces_dir s) (unique_filename now pid) img)
     else _face_cache s) /\
  faces_dir (fst (detect_faces s now pid img)) = faces_dir s.
Proof.
  unfold detect_faces, passes_detection, detected_entry.
  destruct (validate_image img); simpl; [|split; reflexivity].
  destruct (imdecode_ok img); simpl; [|split; reflexivity].
  destruct (face_locations img) as [|[|n]]; simpl;
    destruct (face_encodings img) as [|e [|e' l]]; simpl;
    split; reflexivity.
Qed.

Lemma register_images_cache (images : list Routes.Upload) :
  forall (s : FaceService.t) (user_id pid : Z) (clock : nat -> Q) (i n : nat),
    _face_cache
      (FaceService.face_recognition_service
         (fst (Routes.register_images s user_id pid clock i images n)))
      = batch_upserts (faces_dir (FaceService.face_recognition_service s))
          pid clock i images
          (_face_cache (FaceService.face_recognition_service s)) /\
    faces_dir
      (FaceService.face_recognition_service
         (fst (Routes.register_images s user_id pid clock i images n)))
      = faces_dir (FaceService.face_recognition_service s).
Proof.
  induction images as [|u images IH]; intros s user_id pid clock i n;
    [split; reflexivity|].
  simpl. unfold upsert_detected, detected.
  destruct (Routes.base64_valid u); simpl; [|apply IH].
  pose proof (EnrollmentFacts.register_face_service s user_id (clock i) pid
                (Routes.image u)) as Es.
  destruct (detect_faces_cache (FaceService.face_recognition_service s)
              (clock i) pid (Routes.image u)) as [Ec Ed].
  destruct (FaceService.register_face s user_id (clock i) pid (Routes.image u))
    as [s1 result].
  simpl in Es. rewrite <- Es in Ec, Ed. rewrite <- Ec, <- Ed.
  destruct (FaceService.register_success result); apply IH.
Qed.

Lemma batch_upserts_keeps (images : list Routes.Upload) :
  forall (dir : string) (pid : Z) (clock : nat -> Q) (i : nat)
         (c : PyDict.t CacheEntry) (k : string) (v : CacheEntry),
    PyDict.get c k = Some v ->
    (forall j u, nth_error images j = Some u -> detected u = true ->
                 unique_filename (clock (i + j)%nat) pid <> k) ->
    PyDict.get (batch_upserts dir pid clock i images c) k = Some v.
Proof.
  induction images as [|u0 images IH]; intros dir pid clock i c k v G H;
    [exact G|].
  simpl. apply IH.
  - unfold upsert_detected. destruct (detected u0) eqn:D; [|exact G].
    rewrite get_set_elsewhere; [exact G|].
    pose proof (H 0%nat u0 eq_refl D) as N. now rewrite Nat.add_0_r in N.
  - intros j u Hn Hd. replace (S i + j)%nat with (i + S j)%nat by lia.
    exact (H (S j) u Hn Hd).
Qed.

Lemma batch_upserts_entry (images : list Routes.Upload) :
  forall (dir : string) (pid : Z) (clock : nat -> Q) (i : nat)
         (c : PyDict.t CacheEntry) (j : nat) (u : Routes.Upload),
    nth_error images j = Some u -> detected u = true ->
    (forall j' u', (j < j')%nat -> nth_error images j' = Some u' ->
                   detected u' = true ->
                   unique_filename (clock (i + j')%nat) pid
                   <> unique_filename (clock (i + j)%nat) pid) ->
    PyDict.get (batch_upserts dir pid clock i images c)
      (unique_filename (clock (i + j)%nat) pid)
      = Some (detected_entry dir (unique_filename (clock (i + j)%nat) pid)
                (Routes.image u)).
Proof.
  induction images as [|u0 images IH]; intros dir pid clock i c j u Hn Hd H.
  - destruct j; discriminate.
  - destruct j as [|j]; simpl in Hn.
    + injection Hn as ->. simpl. rewrite Nat.add_0_r in *.
      apply batch_upserts_keeps.
      * unfold upsert_detected. rewrite Hd.
        apply EnrollmentFacts.get_set_same.
      * intros j' u' Hn' Hd'.
        replace (S i + j')%nat with (i + S j')%nat by lia.
        apply (H (S j') u'); [lia|exact Hn'|exact Hd'].
    + simpl. replace (i + S j)%nat with (S i + j)%nat by lia.
      apply IH; [exact Hn|exact Hd|].
      intros j' u' Hlt Hn' Hd'.
      replace (S i + j')%nat with (i + S j')%nat by lia.
      replace (S i + j)%nat with (i + S j)%nat by lia.
      apply (H (S j') u'); [lia|exact Hn'|exact Hd'].
Qed.

End BatchCacheFacts.

(** * Facts about requests with encodings of more than one component *)

Module EngineFacts.
Import FaceRecognitionService Enrollment.









End EngineFacts.

(** * The claims *)

Import FaceRecognitionService.

(** ** C1: which candidate the scan selects *)

(** C1 (amended). When some cached candidate is within tolerance of the
    probe, the scan returns the first candidate, in the iteration order of
    the cache, whose distance is within tolerance: every candidate before it
    is farther than the tolerance (or its comparison raised), and the
    confidence reported is one minus its distance. *)
Theorem C1_scan_returns_first_match :
  forall (sqrtf : Q -> Q) (cache : PyDict.t CacheEntry) (probe : Encoding)
         (tol : Q),
    Matcher.has_match sqrtf cache probe tol ->
    exists before fn fd after d,
      cache = (before ++ (fn, fd) :: after)%list /\
      (forall kv d', In kv before ->
         Numpy.face_distance sqrtf (encoding (snd kv)) probe = Some d' ->
         tol < d') /\
      Numpy.face_distance sqrtf (encoding fd) probe = Some d /\ d <= tol /\
      scan sqrtf cache probe tol =
        Some {| r_filename := fn; r_file_path := file_path fd;
                r_confidence := 1 - d |}.
Proof.
  intros sqrtf cache probe tol.
  induction cache as [|[fn fd] rest IH]; intros [fn0 [fd0 [d0 [I [E L]]]]].
  - destruct I.
  - destruct (Matcher.matching sqrtf probe tol (fn, fd)) eqn:M.
    + destruct (MatcherFacts.result_for_matching sqrtf _ _ _ M)
        as [d [Ed [Ld R]]].
      exists [], fn, fd, rest, d.
      split; [reflexivity|]. split; [intros kv d' []|].
      split; [exact Ed|]. split; [exact Ld|].
      rewrite MatcherFacts.scan_cons, M. exact R.
    + assert (H : Matcher.has_match sqrtf rest probe tol).
      { destruct I as [I|I].
        - injection I as <- <-.
          assert (Matcher.matching sqrtf probe tol (fn, fd) = true) as M'
            by (apply MatcherFacts.matching_true; exists d0; auto).
          congruence.
        - exists fn0, fd0, d0. auto. }
      destruct (IH H) as [before [fn1 [fd1 [after [d [Ec [B [Ed [Ld R]]]]]]]]].
      exists ((fn, fd) :: before), fn1, fd1, after, d.
      split; [simpl; now rewrite Ec|].
      split.
      { intros kv d' [<-|Ik] Ek; [|now apply (B kv)].
        exact (MatcherFacts.matching_false sqrtf _ _ _ M d' Ek). }
      split; [exact Ed|]. split; [exact Ld|].
      rewrite MatcherFacts.scan_cons, M. exact R.
Qed.

(** C1, a run: on the sample cache the theorem's conclusion holds for
    [Samples.far_first]. *)
Lemma C1_scan_returns_first_match_witness :
  exists before fn fd after d,
    Samples.far_first = (before ++ (fn, fd) :: after)%list /\
    (forall kv d', In kv before ->
       Numpy.face_distance Numpy.exact_sqrt (encoding (snd kv)) Samples.probe
         = Some d' ->
       6#10 < d') /\
    Numpy.face_distance Numpy.exact_sqrt (encoding fd) Samples.probe = Some d
    /\ d <= 6#10 /\
    scan Numpy.exact_sqrt Samples.far_first Samples.probe (6#10) =
      Some {| r_filename := fn; r_file_path := file_path fd;
              r_confidence := 1 - d |}.
Proof.
  apply (C1_scan_returns_first_match Numpy.exact_sqrt Samples.far_first
           Samples.probe (6#10)).
  exists "b.jpg"%string, (snd (Samples.entry "b.jpg" [3#10])), (3#10).
  split; [right; left; reflexivity|].
  split; [reflexivity|].
  unfold Qle; simpl; lia.
Defined.

(** C1 as stated fails: with the farther face (distance 0.5) cached before
    the nearer one (distance 0.3) and tolerance 0.6, both match and the scan
    returns the farther one, so no nearest candidate is what it returns. *)
Lemma C1_best_of_selection_counterexample :
  ~ Matcher.best_of_selection Numpy.exact_sqrt Samples.far_first
      Samples.probe (6#10).
Proof.
  intros H.
  destruct H as [fn [fd [d [I [E [L [Min R]]]]]]].
  - exists "a.jpg"%string, (snd (Samples.entry "a.jpg" [1#2])), (1#2).
    split; [left; reflexivity|]. split; [reflexivity|].
    unfold Qle; simpl; lia.
  - vm_compute in R. injection R as Efn Epath Econf.
    destruct I as [I|[I|[]]]; injection I as <- <-; try discriminate.
    vm_compute in E. injection E as <-.
    specialize (Min "b.jpg"%string (snd (Samples.entry "b.jpg" [3#10]))
                    (3#10)).
    assert (C : 1#2 <= 3#10).
    { apply Min.
      - right; left; reflexivity.
      - reflexivity.
      - unfold Qle; simpl; lia. }
    unfold Qle in C; simpl in C; lia.
Qed.

(** ** C2: dependence on the iteration order *)

(** C2 (amended). Permuting the snapshot does not change whether the scan
    finds a match, and it does not change the result when at most one
    entry of the snapshot is within tolerance of the probe. (With several
    entries within tolerance the result is the first of them in iteration
    order.) *)
Theorem C2_scan_under_permutation :
  forall (sqrtf : Q -> Q) (cache cache' : PyDict.t CacheEntry)
         (probe : Encoding) (tol : Q),
    Permutation cache cache' ->
    (scan sqrtf cache probe tol = None <->
     scan sqrtf cache' probe tol = None) /\
    ((List.length (filter (Matcher.matching sqrtf probe tol) cache) <= 1)%nat ->
     scan sqrtf cache' probe tol = scan sqrtf cache probe tol).
Proof.
  intros sqrtf cache cache' probe tol P. split.
  - rewrite !MatcherFacts.scan_none. split; intros A kv I; apply A.
    + now apply (Permutation_in kv (Permutation_sym P)).
    + now apply (Permutation_in kv P).
  - intros Hlen.
    rewrite !MatcherFacts.scan_find, !MatcherFacts.find_filter.
    rewrite (MatcherFacts.short_permutation _ _ Hlen
               (MatcherFacts.filter_permutation
                  (Matcher.matching sqrtf probe tol) _ _ P)).
    reflexivity.
Qed.

(** C2, a run: the sample cache against its reversal, with a tolerance
    (0.4) that only the nearer face meets. *)
Lemma C2_scan_under_permutation_witness :
  scan Numpy.exact_sqrt (rev Samples.far_first) Samples.probe (4#10) =
  scan Numpy.exact_sqrt Samples.far_first Samples.probe (4#10).
Proof.
  apply (C2_scan_under_permutation Numpy.exact_sqrt Samples.far_first
           (rev Samples.far_first) Samples.probe (4#10)
           (Permutation_rev Samples.far_first)).
  vm_compute. apply le_n.
Defined.

(** C2 as stated fails: with tolerance 0.6 both sample faces match, and
    reversing the cache changes the selected file from [a.jpg] to
    [b.jpg]. *)
Lemma C2_order_independent_counterexample :
  ~ Matcher.order_independent Numpy.exact_sqrt Samples.far_first
      Samples.probe (6#10).
Proof.
  intros H.
  specialize (H (rev Samples.far_first) (Permutation_rev _)).
  vm_compute in H. discriminate H.
Qed.

(** ** C4: a refresh whose enumeration fails *)

(** C4 (amended). In a refresh that is due (the time-to-live has elapsed)
    the cache is emptied before the directory is listed. When the listing
    raises, the cache is left empty and the last-refresh time is left
    unchanged, so the next call tries again. When the listing succeeds, a
    file whose read raises, or that cannot be read as an image, is skipped:
    the rebuild completes, stamps the refresh time, and yields the cache it
    would yield without that file. *)
Theorem C4_refresh_enumeration_failure :
  forall (s : t) (now : Q) (fs : FileSystem),
    Refresh.stale s now = true ->
    dir_exists fs = true ->
    (listdir fs = None ->
     _face_cache (_update_face_cache s now fs) = PyDict.empty /\
     _last_cache_update (_update_face_cache s now fs)
       = _last_cache_update s) /\
    (forall before filename r after,
        r = ReadRaises \/ r = ReadNone ->
        listdir fs = Some (before ++ (filename, r) :: after)%list ->
        _last_cache_update (_update_face_cache s now fs) = now /\
        _update_face_cache s now fs =
          _update_face_cache s now (Refresh.listing (before ++ after))).
Proof.
  intros s now fs Hstale Hdir.
  rewrite (RefreshFacts.update_when_stale s now fs Hstale), Hdir. simpl.
  split.
  - intros ->. split; reflexivity.
  - intros before filename r after Hr ->.
    rewrite (RefreshFacts.update_when_stale s now _ Hstale). simpl.
    split; [reflexivity|].
    f_equal. apply RefreshFacts.rebuild_skips.
    destruct Hr as [->| ->]; auto.
Qed.

(** C4, a run: the sample service, whose cache is due at second 1000, over
    a directory whose listing raises. *)
Lemma C4_refresh_enumeration_failure_witness :
  _face_cache
    (_update_face_cache (Samples.service Samples.far_first (6#10)) 1000
       Samples.unreadable_dir) = PyDict.empty /\
  _last_cache_update
    (_update_face_cache (Samples.service Samples.far_first (6#10)) 1000
       Samples.unreadable_dir) = 0.
Proof.
  apply (C4_refresh_enumeration_failure
           (Samples.service Samples.far_first (6#10)) 1000
           Samples.unreadable_dir);
    reflexivity.
Defined.

(** C4 as stated fails: the sample cache holds two faces; after the due
    refresh whose listing raises it holds none. *)
Lemma C4_previous_content_counterexample :
  ~ Refresh.previous_content_retained
      (Samples.service Samples.far_first (6#10)) 1000
      Samples.unreadable_dir.
Proof.
  intros H. specialize (H eq_refl). vm_compute in H. discriminate H.
Qed.

(** ** C5: candidates whose length differs from the probe's *)

(** C5 (amended). A cached candidate whose vector length differs from the
    probe's, neither length being 1, makes the comparison raise; the scan
    catches the exception and goes on, and its result is the one it gives
    on the cache without that candidate. No error reaches the caller. *)
Theorem C5_mismatched_candidate_is_skipped :
  forall (sqrtf : Q -> Q) (before after : PyDict.t CacheEntry)
         (fn : string) (fd : CacheEntry) (probe : Encoding) (tol : Q),
    List.length (encoding fd) <> List.length probe ->
    List.length (encoding fd) <> 1%nat ->
    List.length probe <> 1%nat ->
    Numpy.compare_faces sqrtf (encoding fd) probe tol = None /\
    scan sqrtf (before ++ (fn, fd) :: after) probe tol =
      scan sqrtf (before ++ after) probe tol.
Proof.
  intros sqrtf before after fn fd probe tol Hne Hk Hp.
  assert (C : Numpy.compare_faces sqrtf (encoding fd) probe tol = None).
  { apply MatcherFacts.compare_faces_raises.
    now apply MatcherFacts.broadcast_sub_raises. }
  split; [exact C|].
  rewrite !MatcherFacts.scan_app, MatcherFacts.scan_cons.
  unfold Matcher.matching. simpl. rewrite C. reflexivity.
Qed.

(** C5, a run: the two-component candidate of the sample cache against the
    three-component probe. *)
Lemma C5_mismatched_candidate_is_skipped_witness :
  Numpy.compare_faces Numpy.exact_sqrt [0; 0] Samples.probe3 (6#10) = None /\
  scan Numpy.exact_sqrt Samples.mixed_lengths Samples.probe3 (6#10) =
    scan Numpy.exact_sqrt [Samples.entry "b.jpg" [0; 0; 0]] Samples.probe3
      (6#10).
Proof.
  apply (C5_mismatched_candidate_is_skipped Numpy.exact_sqrt []
           [Samples.entry "b.jpg" [0; 0; 0]] "a.jpg"
           (snd (Samples.entry "a.jpg" [0; 0])) Samples.probe3 (6#10));
    simpl; lia.
Defined.

(** C5 as stated fails: the first candidate has two components and the
    probe three, the comparison raises, and yet the scan goes on and
    returns the second candidate as an ordinary match; alone in the cache,
    the mismatched candidate gives the ordinary "no match" answer. *)
Lemma C5_fail_fast_counterexample :
  List.length (encoding (snd (Samples.entry "a.jpg" [0; 0])))
    <> List.length Samples.probe3 /\
  Numpy.face_distance Numpy.exact_sqrt [0; 0] Samples.probe3 = None /\
  scan Numpy.exact_sqrt Samples.mixed_lengths Samples.probe3 (6#10) =
    Some {| r_filename := "b.jpg"; r_file_path := "faces/b.jpg";
            r_confidence := 1 |} /\
  scan Numpy.exact_sqrt [Samples.entry "a.jpg" [0; 0]] Samples.probe3 (6#10)
    = None.
Proof.
  repeat split; try reflexivity. simpl. lia.
Qed.

(** ** C6: the tolerance is an inclusive threshold *)

(** C6. A candidate whose distance to the probe equals the tolerance is
    accepted: [compare_faces] answers true for it and the scan, on reaching
    it, returns it. A candidate whose distance exceeds the tolerance is
    rejected: [compare_faces] answers false and the scan passes on to the
    rest of the cache. *)
Theorem C6_threshold_is_inclusive :
  forall (sqrtf : Q -> Q) (fn : string) (fd : CacheEntry)
         (rest : PyDict.t CacheEntry) (probe : Encoding) (tol d : Q),
    Numpy.face_distance sqrtf (encoding fd) probe = Some d ->
    (d == tol ->
     Numpy.compare_faces sqrtf (encoding fd) probe tol = Some true /\
     scan sqrtf ((fn, fd) :: rest) probe tol =
       Some {| r_filename := fn; r_file_path := file_path fd;
               r_confidence := 1 - d |}) /\
    (tol < d ->
     Numpy.compare_faces sqrtf (encoding fd) probe tol = Some false /\
     scan sqrtf ((fn, fd) :: rest) probe tol = scan sqrtf rest probe tol).
Proof.
  intros sqrtf fn fd rest probe tol d E. split; intros H.
  - assert (C : Numpy.compare_faces sqrtf (encoding fd) probe tol
                = Some true).
    { apply MatcherFacts.compare_faces_true. exists d. split; [exact E|].
      rewrite H. apply Qle_refl. }
    split; [exact C|]. simpl. rewrite C, E. reflexivity.
  - assert (C : Numpy.compare_faces sqrtf (encoding fd) probe tol
                = Some false).
    { apply MatcherFacts.compare_faces_false. exists d. auto. }
    split; [exact C|]. simpl. rewrite C. reflexivity.
Qed.

(** C6, a run: the sample face at distance exactly 0.6 is returned under
    tolerance 0.6 and passed over under tolerance 0.5. *)
Lemma C6_threshold_is_inclusive_witness :
  scan Numpy.exact_sqrt Samples.on_threshold Samples.probe (6#10) =
    Some {| r_filename := "a.jpg"; r_file_path := "faces/a.jpg";
            r_confidence := 1 - (6#10) |} /\
  scan Numpy.exact_sqrt Samples.on_threshold Samples.probe (5#10) = None.
Proof.
  split.
  - apply (C6_threshold_is_inclusive Numpy.exact_sqrt "a.jpg"
             (snd (Samples.entry "a.jpg" [6#10])) [] Samples.probe
             (6#10) (6#10) eq_refl).
    reflexivity.
  - apply (C6_threshold_is_inclusive Numpy.exact_sqrt "a.jpg"
             (snd (Samples.entry "a.jpg" [6#10])) [] Samples.probe
             (5#10) (6#10) eq_refl).
    unfold Qlt; simpl; lia.
Defined.

(** ** C7: the confidence of a result *)

(** C7 (amended). Every result of the scan belongs to a cached candidate
    within tolerance of the probe and its confidence is one minus that
    candidate's distance, unclamped. The confidence is therefore at least
    one minus the tolerance, hence non-negative when the tolerance is at
    most 1, and at most 1 as the norm is never negative. *)
Theorem C7_confidence_is_one_minus_distance :
  forall (sqrtf : Q -> Q) (cache : PyDict.t CacheEntry) (probe : Encoding)
         (tol : Q) (r : Recognition),
    scan sqrtf cache probe tol = Some r ->
    exists fd d,
      In (r_filename r, fd) cache /\
      r_file_path r = file_path fd /\
      Numpy.face_distance sqrtf (encoding fd) probe = Some d /\
      d <= tol /\
      r_confidence r = 1 - d /\
      1 - tol <= r_confidence r /\
      (tol <= 1 -> 0 <= r_confidence r) /\
      ((forall x, 0 <= sqrtf x) -> r_confidence r <= 1).
Proof.
  intros sqrtf cache probe tol r. rewrite MatcherFacts.scan_find.
  destruct (find (Matcher.matching sqrtf probe tol) cache) as [[fn fd]|] eqn:F;
    [|discriminate].
  apply find_some in F. destruct F as [I M].
  destruct (MatcherFacts.result_for_matching sqrtf _ _ _ M) as [d [E [L R]]].
  rewrite R. intros H. injection H as <-. simpl in *.
  exists fd, d. repeat split; trivial.
  - lra.
  - intros T. lra.
  - intros Hs.
    pose proof (MatcherFacts.face_distance_nonneg sqrtf _ _ _ Hs E). lra.
Qed.

(** C7, a run: the result on the sample cache under tolerance 0.6. *)
Lemma C7_confidence_is_one_minus_distance_witness :
  exists fd d,
    In ("a.jpg"%string, fd) Samples.far_first /\
    "faces/a.jpg"%string = file_path fd /\
    Numpy.face_distance Numpy.exact_sqrt (encoding fd) Samples.probe = Some d
    /\ d <= 6#10 /\ 1#2 = 1 - d /\ 1 - (6#10) <= 1#2 /\
    (6#10 <= 1 -> 0 <= 1#2) /\
    ((forall x, 0 <= Numpy.exact_sqrt x) -> 1#2 <= 1).
Proof.
  apply (C7_confidence_is_one_minus_distance Numpy.exact_sqrt
           Samples.far_first Samples.probe (6#10)
           {| r_filename := "a.jpg"; r_file_path := "faces/a.jpg";
              r_confidence := 1#2 |}).
  reflexivity.
Defined.

(** C7 as stated fails: under tolerance 2 the sample face at distance 1.5
    matches and the confidence returned is -0.5, outside [0, 1]. *)
Lemma C7_confidence_range_counterexample :
  ~ Matcher.confidence_in_unit_interval Numpy.exact_sqrt Samples.distant
      Samples.probe 2.
Proof.
  intros H.
  destruct (H {| r_filename := "a.jpg"; r_file_path := "faces/a.jpg";
                 r_confidence := -1#2 |} eq_refl) as [Neg _].
  unfold Qle in Neg. simpl in Neg. lia.
Qed.

(** ** C3: an enrollment batch with too few valid images *)

(** C3 (amended). When fewer than three images of an admissible batch are
    registered, [/register] answers with the validation error that reports
    the number achieved, and the cache writes made while the batch was
    processed are not undone: the cache afterwards is the cache before
    with one write applied, in order, for every image that passed
    detection, under the filename built from the clock second and the
    process id. So the filename of every such image has an entry, and the
    entry holds that image's encoding unless a later detected image of the
    batch got the same filename, whose write replaces it. *)
Theorem C3_insufficient_batch :
  forall (app : Routes.App) (session_user : Z) (user : User.t)
         (images : list Routes.Upload) (clock : nat -> Q)
         (s : FaceService.t) (successful_images : nat),
    (3 <= List.length images)%nat ->
    (Z.of_nat (List.length images) <= Routes.MAX_IMAGES_PER_USER app)%Z ->
    Routes.get_user_by_id app session_user = Some user ->
    FaceService.get_user_faces (Routes.face_service app) (User.id user) = [] ->
    Routes.register_images (Routes.face_service app) (User.id user)
      (Routes.pid app) clock 0 images 0 = (s, successful_images) ->
    (successful_images < 3)%nat ->
    Routes.register_face app (Some session_user)
      (Routes.RegisterImages images) clock =
      (Routes.with_face_service app s,
       ErrorHandler.handle_validation_error
         [("Only " ++ Py.str_of_int (Z.of_nat successful_images)
             ++ " valid images processed, minimum 3 required")%string]) /\
    _face_cache (FaceService.face_recognition_service s) =
      Enrollment.batch_upserts
        (faces_dir
           (FaceService.face_recognition_service (Routes.face_service app)))
        (Routes.pid app) clock 0 images (Enrollment.cache app) /\
    (forall i u,
        nth_error images i = Some u ->
        Enrollment.detected u = true ->
        PyDict.get (_face_cache (FaceService.face_recognition_service s))
          (unique_filename (clock i) (Routes.pid app)) <> None /\
        ((forall j u',
             (i < j)%nat -> nth_error images j = Some u' ->
             Enrollment.detected u' = true ->
             unique_filename (clock j) (Routes.pid app)
             <> unique_filename (clock i) (Routes.pid app)) ->
         PyDict.get (_face_cache (FaceService.face_recognition_service s))
           (unique_filename (clock i) (Routes.pid app))
         = Some (Enrollment.detected_entry
                   (faces_dir
                      (FaceService.face_recognition_service
                         (Routes.face_service app)))
                   (unique_filename (clock i) (Routes.pid app))
                   (Routes.image u)))).
Proof.
  intros app session_user user images clock s k Hmin Hmax Huser Hnone Hloop Hk.
  assert (Hcache :
            _face_cache (FaceService.face_recognition_service s) =
            Enrollment.batch_upserts
              (faces_dir
                 (FaceService.face_recognition_service
                    (Routes.face_service app)))
              (Routes.pid app) clock 0 images (Enrollment.cache app)).
  { pose proof (proj1 (BatchCacheFacts.register_images_cache images
                         (Routes.face_service app) (User.id user)
                         (Routes.pid app) clock 0 0)) as H.
    rewrite Hloop in H. exact H. }
  split; [|split; [exact Hcache|]].
  - unfold Routes.register_face.
    destruct (Z.ltb_spec (Z.of_nat (List.length images)) 3); [lia|].
    destruct (Z.ltb_spec (Routes.MAX_IMAGES_PER_USER app)
                (Z.of_nat (List.length images))); [lia|].
    rewrite Huser, Hnone, Hloop.
    destruct (Nat.ltb_spec k 3); [reflexivity|lia].
  - intros i u Hn Hd. split.
    + unfold Enrollment.detected in Hd. apply andb_prop in Hd.
      destruct Hd as [Hb Hp].
      pose proof (EnrollmentFacts.register_images_caches images
                    (Routes.face_service app) (User.id user) (Routes.pid app)
                    clock 0 0 i u Hn Hb Hp) as H.
      rewrite Hloop in H. exact H.
    + intros Hlast. rewrite Hcache.
      exact (BatchCacheFacts.batch_upserts_entry images _ (Routes.pid app)
               clock 0 (Enrollment.cache app) i u Hn Hd Hlast).
Qed.

(** C3, a run: a batch of five uploads of which two show a face, with
    encodings of two components, processed at seconds 1000 to 1004. No
    image is registered, and both faces are in the cache afterwards. *)
Lemma C3_insufficient_batch_witness :
  snd (Routes.register_face (Samples.app [] []) (Some 7%Z)
         (Routes.RegisterImages Samples.two_real_of_five) Samples.clock) =
    ErrorHandler.handle_validation_error
      ["Only 0 valid images processed, minimum 3 required"%string] /\
  PyDict.keys (Enrollment.cache
                 (fst (Routes.register_face (Samples.app [] []) (Some 7%Z)
                         (Routes.RegisterImages Samples.two_real_of_five)
                         Samples.clock))) =
    ["1000_4242.jpg"; "1002_4242.jpg"]%string.
Proof.
  destruct (C3_insufficient_batch (Samples.app [] []) 7 Samples.ann
              Samples.two_real_of_five Samples.clock
              (fst (Routes.register_images
                      (Routes.face_service (Samples.app [] [])) 7 4242
                      Samples.clock 0 Samples.two_real_of_five 0))
              0%nat) as [E _].
  - simpl. lia.
  - simpl. lia.
  - reflexivity.
  - reflexivity.
  - reflexivity.
  - lia.
  - rewrite E. split; reflexivity.
Defined.

(** C3 as stated fails: after the sample batch (five uploads, two with a
    face, encodings of two components) is answered with the validation
    error, the cache holds the two entries written for the detected
    faces. *)
Lemma C3_all_or_nothing_counterexample :
  ~ Enrollment.all_or_nothing (Samples.app [] []) 7 Samples.two_real_of_five
      Samples.clock.
Proof.
  intros H.
  edestruct H as [_ Hcache]; [reflexivity|].
  vm_compute in Hcache. discriminate Hcache.
Qed.

(** ** C8: the primary flag *)



(** ** C9: a match whose row is gone *)

(** C9. When the cache yields a match for which the table has no row with
    that file path, [FaceService.recognize_face] reports a failure and
    [/recognize] answers 404 "Face not recognized": the very response it
    gives when the cache yields no match at all, and not a server
    error. *)
Theorem C9_match_without_row_is_not_found :
  forall (sqrtf : Q -> Q) (app : Routes.App) (image_data : Routes.Upload)
         (now : Q) (fs : FileSystem) (frs : t) (r : Recognition),
    Routes.base64_valid image_data = true ->
    recognize_face sqrtf
      (FaceService.face_recognition_service (Routes.face_service app))
      now fs (Routes.image image_data) = (frs, Some r) ->
    FaceImageRepository.find_by_file_path (Enrollment.rows app)
      (r_file_path r) = None ->
    snd (FaceService.recognize_face sqrtf (Routes.face_service app) now fs
           (Routes.image image_data))
      = FaceService.RecognizeError "Face not found in database" /\
    snd (Routes.recognize_face sqrtf app (Routes.RecognizeImage image_data)
           now fs)
      = ErrorHandler.handle_not_found_error "Face not recognized" /\
    ErrorHandler.status
      (snd (Routes.recognize_face sqrtf app
              (Routes.RecognizeImage image_data) now fs)) = 404%nat /\
    (forall (app0 : Routes.App) (image0 : Routes.Upload) (now0 : Q)
            (fs0 : FileSystem) (frs0 : t),
        Routes.base64_valid image0 = true ->
        recognize_face sqrtf
          (FaceService.face_recognition_service (Routes.face_service app0))
          now0 fs0 (Routes.image image0) = (frs0, None) ->
        snd (Routes.recognize_face sqrtf app0 (Routes.RecognizeImage image0)
               now0 fs0) =
        snd (Routes.recognize_face sqrtf app (Routes.RecognizeImage image_data)
               now fs)).
Proof.
  intros sqrtf app image_data now fs frs r Hb Hr Hrow.
  unfold Enrollment.rows in Hrow.
  assert (Es : snd (FaceService.recognize_face sqrtf (Routes.face_service app)
                      now fs (Routes.image image_data))
               = FaceService.RecognizeError "Face not found in database").
  { unfold FaceService.recognize_face. rewrite Hr, Hrow. reflexivity. }
  assert (Er : snd (Routes.recognize_face sqrtf app
                      (Routes.RecognizeImage image_data) now fs)
               = ErrorHandler.handle_not_found_error "Face not recognized").
  { unfold Routes.recognize_face. rewrite Hb. simpl.
    destruct (FaceService.recognize_face sqrtf (Routes.face_service app) now
                fs (Routes.image image_data)) as [s result].
    simpl in Es. rewrite Es. reflexivity. }
  split; [exact Es|]. split; [exact Er|]. split; [now rewrite Er|].
  intros app0 image0 now0 fs0 frs0 Hb0 Hr0. rewrite Er.
  unfold Routes.recognize_face, FaceService.recognize_face.
  rewrite Hb0, Hr0. reflexivity.
Qed.

(** C9, a run: the sample cache knows [faces/a.jpg] while the table is
    empty; the probe photo matches it at second 100, within the cache's
    time-to-live. *)
Lemma C9_match_without_row_is_not_found_witness :
  snd (Routes.recognize_face Numpy.exact_sqrt
         (Samples.app Samples.far_first [])
         (Routes.RecognizeImage (Samples.upload (Samples.one_face 0)))
         100 Samples.unreadable_dir)
    = ErrorHandler.handle_not_found_error "Face not recognized".
Proof.
  apply (C9_match_without_row_is_not_found Numpy.exact_sqrt
           (Samples.app Samples.far_first [])
           (Samples.upload (Samples.one_face 0)) 100 Samples.unreadable_dir
           (Samples.service Samples.far_first (6#10))
           {| r_filename := "a.jpg"; r_file_path := "faces/a.jpg";
              r_confidence := 1#2 |});
    reflexivity.
Defined.

(** * Further properties of the code *)

(** X1. [FaceService.register_face] never marks a row primary: for every
    owner, the number of primary rows is the same after the call as
    before. *)
Theorem register_face_creates_no_primary :
  forall (s : FaceService.t) (user_id : Z) (now : Q) (pid : Z)
         (img : RawImage) (owner : Z),
    Enrollment.primary_count
      (FaceService.face_image_repository
         (fst (FaceService.register_face s user_id now pid img))) owner =
    Enrollment.primary_count (FaceService.face_image_repository s) owner.
Proof.
  intros s user_id now pid img owner. unfold FaceService.register_face.
  destruct (detect_faces (FaceService.face_recognition_service s) now pid img)
    as [frs [[|c fn]|]]; try reflexivity.
  destruct (get_face_encoding img) as [e|]; [|reflexivity].
  destruct (Numpy.ndarray_bool e) as [[|]|]; try reflexivity.
  simpl.
  exact (EnrollmentFacts.primary_count_create
           (FaceService.face_image_repository s) user_id _ e owner).
Qed.

(** * Facts about the dict model *)

Module PyDictFacts.

Lemma in_set {V : Type} (d : PyDict.t V) (k : string) (v : V)
    (kv : string * V) :
  In kv (PyDict.set d k v) -> kv = (k, v) \/ In kv d.
Proof.
  induction d as [|[k0 v0] d IH]; simpl.
  - intros [<-|[]]. now left.
  - destruct (String.eqb k0 k); simpl.
    + intros [<-|H]; auto.
    + intros [<-|H]; auto. destruct (IH H); auto.
Qed.

Lemma keys_set {V : Type} (d : PyDict.t V) (k : string) (v : V) :
  PyDict.keys (PyDict.set d k v) =
    if existsb (String.eqb k) (PyDict.keys d) then PyDict.keys d
    else (PyDict.keys d ++ [k])%list.
Proof.
  unfold PyDict.keys. induction d as [|[k0 v0] d IH]; simpl; [reflexivity|].
  rewrite (String.eqb_sym k k0).
  destruct (String.eqb_spec k0 k) as [->|Hk]; simpl; [reflexivity|].
  rewrite IH. destruct (existsb (String.eqb k) (map fst d)); reflexivity.
Qed.

Lemma keys_set_nodup {V : Type} (d : PyDict.t V) (k : string) (v : V) :
  NoDup (PyDict.keys d) -> NoDup (PyDict.keys (PyDict.set d k v)).
Proof.
  intros H. rewrite keys_set.
  destruct (existsb (String.eqb k) (PyDict.keys d)) eqn:E; [exact H|].
  apply NoDup_app; [exact H|repeat constructor; intros []|].
  intros x Hx [Hk|[]]. subst x.
  assert (existsb (String.eqb k) (PyDict.keys d) = true) as C; [|congruence].
  apply existsb_exists. exists k. split; [exact Hx|apply String.eqb_refl].
Qed.

Lemma len_set {V : Type} (d : PyDict.t V) (k : string) (v : V) :
  (PyDict.len (PyDict.set d k v) <= S (PyDict.len d))%nat.
Proof.
  unfold PyDict.len. induction d as [|[k0 v0] d IH]; simpl; [lia|].
  destruct (String.eqb k0 k); simpl; lia.
Qed.

Lemma key_in_set {V : Type} (d : PyDict.t V) (k : string) (v : V) :
  In k (PyDict.keys (PyDict.set d k v)).
Proof.
  unfold PyDict.keys. induction d as [|[k0 v0] d IH]; simpl; [now left|].
  destruct (String.eqb k0 k); simpl; auto.
Qed.

Lemma keys_set_existing {V : Type} (d : PyDict.t V) (k : string) (v : V) :
  In k (PyDict.keys d) -> PyDict.keys (PyDict.set d k v) = PyDict.keys d.
Proof.
  intros H. rewrite keys_set.
  assert (C : existsb (String.eqb k) (PyDict.keys d) = true).
  { apply existsb_exists. exists k. split; [exact H|apply String.eqb_refl]. }
  now rewrite C.
Qed.

End PyDictFacts.

(** * Facts about detection and the rebuild *)

Module DetectionFacts.
Import FaceRecognitionService Enrollment Refresh.

Lemma unique_filename_nonempty (now : Q) (pid : Z) :
  unique_filename now pid <> EmptyString.
Proof.
  unfold unique_filename.
  destruct (Py.str_of_int (Py.int_of_float now)); simpl; discriminate.
Qed.

Lemma passes_detection_encodings (img : RawImage) :
  passes_detection img = true ->
  validate_image img = true /\ imdecode_ok img = true /\
  face_locations img = 1%nat /\ exists e, face_encodings img = [e].
Proof.
  unfold passes_detection. intros H.
  apply andb_prop in H. destruct H as [H He].
  apply andb_prop in H. destruct H as [H Hl].
  apply andb_prop in H. destruct H as [Hv Hd].
  apply Nat.eqb_eq in Hl. apply Nat.eqb_eq in He.
  repeat split; trivial.
  destruct (face_encodings img) as [|e [|e' l]]; try discriminate.
  now exists e.
Qed.

Lemma detect_faces_value (s : t) (now : Q) (pid : Z) (img : RawImage)
    (e : Encoding) :
  passes_detection img = true -> face_encodings img = [e] ->
  detect_faces s now pid img =
    (with_cache s
       (PyDict.set (_face_cache s) (unique_filename now pid)
          {| encoding := e;
             file_path :=
               Py.path_join (faces_dir s) (unique_filename now pid) |}),
     Some (unique_filename now pid)).
Proof.
  intros Hp He.
  destruct (passes_detection_encodings img Hp) as [Hv [Hd [Hl _]]].
  unfold detect_faces. rewrite Hv, Hd, Hl, He. reflexivity.
Qed.

Section Rebuild.
Variable dir : string.

Lemma cache_file_entries (cache : PyDict.t CacheEntry)
    (item : string * ReadResult) (kv : string * CacheEntry) :
  In kv (cache_file dir cache item) ->
  In kv cache \/ from_listing dir [item] kv.
Proof.
  destruct item as [filename read]. unfold cache_file.
  destruct (Py.endswith_any (Py.lower filename) image_suffixes) eqn:S;
    [|now left].
  destruct read as [| |[|e encs]]; try (now left).
  intros H. apply PyDictFacts.in_set in H. destruct H as [->|H]; [|now left].
  right. repeat split; simpl; trivial. exists encs. now left.
Qed.

Lemma cache_file_nodup (cache : PyDict.t CacheEntry)
    (item : string * ReadResult) :
  NoDup (PyDict.keys cache) -> NoDup (PyDict.keys (cache_file dir cache item)).
Proof.
  destruct item as [filename read]. unfold cache_file. intros H.
  destruct (Py.endswith_any (Py.lower filename) image_suffixes); [|exact H].
  destruct read as [| |[|e encs]]; trivial.
  now apply PyDictFacts.keys_set_nodup.
Qed.

Lemma cache_file_len (cache : PyDict.t CacheEntry)
    (item : string * ReadResult) :
  (PyDict.len (cache_file dir cache item) <= S (PyDict.len cache))%nat.
Proof.
  destruct item as [filename read]. unfold cache_file.
  destruct (Py.endswith_any (Py.lower filename) image_suffixes); [|lia].
  destruct read as [| |[|e encs]]; try lia.
  apply PyDictFacts.len_set.
Qed.

Lemma rebuild_entries (files : list (string * ReadResult)) :
  forall (cache : PyDict.t CacheEntry) (kv : string * CacheEntry),
    In kv (fold_left (cache_file dir) files cache) ->
    In kv cache \/ from_listing dir files kv.
Proof.
  induction files as [|item files IH]; intros cache kv H; [now left|].
  simpl in H. destruct (IH _ _ H) as [H1|[S [P [encs I]]]].
  - destruct (cache_file_entries _ _ _ H1) as [H2|[S [P [encs I]]]];
      [now left|].
    right. repeat split; trivial. exists encs.
    destruct I as [I|[]]. left. exact I.
  - right. repeat split; trivial. exists encs. now right.
Qed.

Lemma rebuild_nodup (files : list (string * ReadResult)) :
  forall cache : PyDict.t CacheEntry,
    NoDup (PyDict.keys cache) ->
    NoDup (PyDict.keys (fold_left (cache_file dir) files cache)).
Proof.
  induction files as [|item files IH]; intros cache H; [exact H|].
  simpl. apply IH. now apply cache_file_nodup.
Qed.

Lemma rebuild_len (files : list (string * ReadResult)) :
  forall cache : PyDict.t CacheEntry,
    (PyDict.len (fold_left (cache_file dir) files cache)
     <= PyDict.len cache + List.length files)%nat.
Proof.
  induction files as [|item files IH]; intros cache; simpl; [lia|].
  pose proof (IH (cache_file dir cache item)).
  pose proof (cache_file_len cache item). lia.
Qed.
End Rebuild.

Lemma update_when_fresh (s : t) (now : Q) (fs : FileSystem) :
  stale s now = false -> _update_face_cache s now fs = s.
Proof.
  unfold stale, _update_face_cache.
  destruct (Py.ltb (now - _last_cache_update s) (_cache_ttl s));
    [reflexivity|discriminate].
Qed.

Lemma stale_spec (s : t) (now : Q) :
  stale s now = true <-> _cache_ttl s <= now - _last_cache_update s.
Proof.
  unfold stale, Py.ltb. rewrite negb_involutive. apply Qle_bool_iff.
Qed.

End DetectionFacts.

(** * Facts about the table of face images *)

Module TableFacts.
Import Table.

Lemma same_id_same_row (rows : list FaceImage.t) (r r' : FaceImage.t) :
  unique_ids rows -> In r rows -> In r' rows ->
  FaceImage.id r = FaceImage.id r' -> r = r'.
Proof.
  unfold unique_ids. induction rows as [|x rows IH]; simpl; [intros _ []|].
  intros N I I' E. inversion N as [|? ? Hx Hn]; subst.
  destruct I as [<-|I], I' as [<-|I']; trivial.
  - exfalso. apply Hx. rewrite E. now apply in_map.
  - exfalso. apply Hx. rewrite <- E. now apply in_map.
  - now apply IH.
Qed.

Lemma unique_ids_filter (f : FaceImage.t -> bool) (rows : list FaceImage.t) :
  unique_ids rows -> unique_ids (filter f rows).
Proof.
  unfold unique_ids. induction rows as [|x rows IH]; simpl; [trivial|].
  intros N. inversion N as [|? ? Hx Hn]; subst.
  destruct (f x); simpl; [|now apply IH].
  constructor; [|now apply IH].
  intros C. apply Hx. apply in_map_iff in C. destruct C as [y [E I]].
  apply filter_In in I. apply in_map_iff. exists y. tauto.
Qed.

Lemma find_by_id_some (rows : list FaceImage.t) (image_id : Z)
    (row : FaceImage.t) :
  FaceImageRepository.find_by_id rows image_id = Some row ->
  In row rows /\ FaceImage.id row = image_id.
Proof.
  unfold FaceImageRepository.find_by_id. intros H.
  apply find_some in H. destruct H as [I E]. split; [exact I|].
  now apply Z.eqb_eq.
Qed.

Lemma find_by_id_none (rows : list FaceImage.t) (image_id : Z) :
  FaceImageRepository.find_by_id rows image_id = None ->
  forall row, In row rows -> FaceImage.id row <> image_id.
Proof.
  unfold FaceImageRepository.find_by_id. intros H row I E.
  pose proof (find_none _ _ H row I) as C. simpl in C.
  apply Z.eqb_neq in C. contradiction.
Qed.

Lemma next_id_is_fresh (rows : list FaceImage.t) (row : FaceImage.t) :
  In row rows -> (FaceImage.id row < FaceImageRepository.next_id rows)%Z.
Proof.
  unfold FaceImageRepository.next_id. intros I.
  assert (H : (FaceImage.id row
               <= fold_right (fun r m => Z.max (FaceImage.id r) m) 0 rows)%Z).
  { induction rows as [|x rows IH]; [destruct I|].
    cbn [fold_right]. destruct I as [<-|I].
    - apply Z.le_max_l.
    - specialize (IH I). etransitivity; [exact IH|apply Z.le_max_r]. }
  lia.
Qed.

Lemma create_keeps_ids_unique (rows : list FaceImage.t) (user_id : Z)
    (path : string) (e : Encoding) :
  unique_ids rows ->
  unique_ids (fst (FaceImageRepository.create rows user_id path e)).
Proof.
  unfold unique_ids, FaceImageRepository.create. simpl. intros N.
  rewrite map_app. simpl. apply NoDup_app; [exact N|repeat constructor; intros []|].
  intros z Hz [Hn|[]]. apply in_map_iff in Hz. destruct Hz as [r [E I]].
  pose proof (next_id_is_fresh rows r I). lia.
Qed.

End TableFacts.

(** * Facts about the enrollment loop *)

Module BatchFacts.
Import FaceRecognitionService Table.

Lemma register_face_rows (s : FaceService.t) (user_id : Z) (now : Q)
    (pid : Z) (img : RawImage) :
  let r := FaceService.register_face s user_id now pid img in
  if FaceService.register_success (snd r) then
    exists row,
      FaceService.face_image_repository (fst r)
        = (FaceService.face_image_repository s ++ [row])%list /\
      enrolled_for user_id row /\
      FaceImage.id row
        = FaceImageRepository.next_id (FaceService.face_image_repository s)
  else
    FaceService.face_image_repository (fst r)
      = FaceService.face_image_repository s.
Proof.
  unfold FaceService.register_face.
  destruct (detect_faces (FaceService.face_recognition_service s) now pid img)
    as [frs [[|c fn]|]]; try reflexivity.
  destruct (get_face_encoding img) as [e|]; [|reflexivity].
  destruct (Numpy.ndarray_bool e) as [[|]|]; try reflexivity.
  simpl. eexists. split; [reflexivity|].
  repeat split.
Qed.

Lemma register_images_rows (images : list Routes.Upload) :
  forall (s : FaceService.t) (user_id pid : Z) (clock : nat -> Q) (i n : nat),
    let r := Routes.register_images s user_id pid clock i images n in
    exists added,
      FaceService.face_image_repository (fst r)
        = (FaceService.face_image_repository s ++ added)%list /\
      (List.length added + n = snd r)%nat /\
      (List.length added <= List.length images)%nat /\
      Forall (enrolled_for user_id) added /\
      (unique_ids (FaceService.face_image_repository s) ->
       unique_ids (FaceService.face_image_repository (fst r))).
Proof.
  induction images as [|u images IH]; intros s user_id pid clock i n; simpl.
  - exists []. rewrite app_nil_r. repeat split; auto.
  - destruct (negb (Routes.base64_valid u)).
    + destruct (IH s user_id pid clock (S i) n)
        as [added [E [L [B [F U]]]]].
      exists added.
      split; [exact E|]. split; [exact L|]. split; [lia|].
      split; [exact F|exact U].
    + pose proof (register_face_rows s user_id (clock i) pid (Routes.image u))
        as Hr.
      cbv zeta in Hr.
      destruct (FaceService.register_face s user_id (clock i) pid
                  (Routes.image u)) as [s1 result].
      simpl in Hr.
      destruct (FaceService.register_success result).
      * destruct Hr as [row [E1 [O Hid]]].
        destruct (IH s1 user_id pid clock (S i) (S n))
          as [added [E [L [B [F U]]]]].
        exists (row :: added).
        split; [rewrite E, E1, <- app_assoc; reflexivity|].
        split; [simpl; lia|]. split; [simpl; lia|].
        split; [constructor; assumption|].
        intros N. apply U. rewrite E1.
        pose proof (TableFacts.create_keeps_ids_unique
                      (FaceService.face_image_repository s)
                      (FaceImage.user_id row) (FaceImage.file_path row)
                      (FaceImage.encoding_data row) N) as C.
        unfold unique_ids in *. simpl in C.
        rewrite map_app in *. simpl in *. rewrite Hid. exact C.
      * destruct (IH s1 user_id pid clock (S i) n)
          as [added [E [L [B [F U]]]]].
        exists added.
        split; [rewrite E, Hr; reflexivity|].
        split; [exact L|]. split; [lia|]. split; [exact F|].
        intros N. apply U. now rewrite Hr.
Qed.

End BatchFacts.

(** * Facts about deletion and replacement *)

Module DeleteFacts.
Import Table.

Lemma filter_all {A : Type} (f : A -> bool) (l : list A) :
  (forall x, In x l -> f x = true) -> filter f l = l.
Proof.
  induction l as [|x l IH]; simpl; intros H; [reflexivity|].
  rewrite (H x (or_introl eq_refl)). f_equal. apply IH. auto.
Qed.

Lemma filter_twice {A : Type} (f g : A -> bool) (l : list A) :
  filter f (filter g l) = filter (fun x => g x && f x) l.
Proof.
  induction l as [|x l IH]; simpl; [reflexivity|].
  destruct (g x); simpl; [|exact IH].
  destruct (f x); [f_equal|]; exact IH.
Qed.

Lemma filter_none {A : Type} (f : A -> bool) (l : list A) :
  filter f l = [] <-> forall x, In x l -> f x = false.
Proof.
  induction l as [|x l IH]; simpl.
  - split; [intros _ x []|reflexivity].
  - destruct (f x) eqn:E; split.
    + discriminate.
    + intros H. rewrite (H x (or_introl eq_refl)) in E. discriminate.
    + intros H y [<-|I]; [exact E|]. now apply IH.
    + intros H. apply IH. auto.
Qed.

(** When every row carrying the id belongs to the user, the service call
    removes exactly the rows with that id. *)
Lemma delete_face_image_rows (s : FaceService.t) (image_id user_id : Z) :
  (forall r, In r (FaceService.face_image_repository s) ->
             FaceImage.id r = image_id -> FaceImage.user_id r = user_id) ->
  FaceService.face_image_repository
    (fst (FaceService.delete_face_image s image_id user_id))
    = filter (fun r => negb (FaceImage.id r =? image_id)%Z)
        (FaceService.face_image_repository s) /\
  FaceService.face_recognition_service
    (fst (FaceService.delete_face_image s image_id user_id))
    = FaceService.face_recognition_service s.
Proof.
  intros H. unfold FaceService.delete_face_image.
  destruct (FaceImageRepository.find_by_id
              (FaceService.face_image_repository s) image_id)
    as [f|] eqn:F.
  - destruct (TableFacts.find_by_id_some _ _ _ F) as [I E].
    rewrite (H f I E), Z.eqb_refl. simpl.
    unfold FaceImageRepository.delete. rewrite E. split; reflexivity.
  - simpl. split; [|reflexivity]. symmetry. apply filter_all.
    intros r I. apply negb_true_iff. apply Z.eqb_neq.
    exact (TableFacts.find_by_id_none _ _ F r I).
Qed.

Lemma delete_existing_rows (face_images : list FaceImage.t) :
  forall (s : FaceService.t) (user_id : Z),
    (forall f r, In f face_images ->
                 In r (FaceService.face_image_repository s) ->
                 FaceImage.id r = FaceImage.id f ->
                 FaceImage.user_id r = user_id) ->
    FaceService.face_image_repository
      (Routes.delete_existing s user_id face_images)
      = filter
          (fun r =>
             forallb (fun f => negb (FaceImage.id r =? FaceImage.id f)%Z)
               face_images)
          (FaceService.face_image_repository s) /\
    FaceService.face_recognition_service
      (Routes.delete_existing s user_id face_images)
      = FaceService.face_recognition_service s.
Proof.
  induction face_images as [|f l IH]; intros s user_id H; simpl.
  - split; [|reflexivity]. symmetry. now apply filter_all.
  - destruct (delete_face_image_rows s (FaceImage.id f) user_id)
      as [E1 E2].
    { intros r I E. exact (H f r (or_introl eq_refl) I E). }
    destruct (IH (fst (FaceService.delete_face_image s (FaceImage.id f)
                         user_id)) user_id) as [E3 E4].
    { intros f' r I' I E. rewrite E1 in I. apply filter_In in I.
      exact (H f' r (or_intror I') (proj1 I) E). }
    rewrite E3, E4, E1, E2, filter_twice. split; reflexivity.
Qed.

Lemma delete_own_rows (rows : list FaceImage.t) (user_id : Z) :
  unique_ids rows ->
  filter
    (fun r =>
       forallb (fun f => negb (FaceImage.id r =? FaceImage.id f)%Z)
         (FaceImageRepository.find_by_user_id rows user_id))
    rows
  = filter (fun r => negb (owned_by user_id r)) rows.
Proof.
  intros N. apply filter_ext_in. intros r I.
  unfold FaceImageRepository.find_by_user_id, owned_by.
  destruct (FaceImage.user_id r =? user_id)%Z eqn:O; simpl.
  - destruct (forallb _ _) eqn:A; [|reflexivity].
    rewrite forallb_forall in A.
    assert (Ir : In r (filter (fun r0 => (FaceImage.user_id r0 =? user_id)%Z)
                         rows)) by (apply filter_In; auto).
    specialize (A r Ir). rewrite Z.eqb_refl in A. discriminate.
  - apply forallb_forall. intros f If. apply filter_In in If.
    destruct If as [If Of]. apply negb_true_iff. apply Z.eqb_neq.
    intros E. rewrite (TableFacts.same_id_same_row rows r f N I If E) in O.
    congruence.
Qed.

End DeleteFacts.

(** * Facts about the paths kept by the cache and by the table *)

Module PathFacts.
Import FaceRecognitionService Paths.

Lemma first_char_of_prefix (c : ascii) (rest p : string) :
  String.prefix (String c rest) p = true ->
  exists p', p = String c p'.
Proof.
  destruct p as [|c' p']; simpl; [discriminate|].
  destruct (ascii_dec c c') as [<-|]; [|discriminate].
  intros _. now exists p'.
Qed.

Lemma relative_path_is_not_joined (p filename : string) :
  String.prefix "faces/" p = true -> p <> Py.path_join "./faces" filename.
Proof.
  intros Hp. destruct (first_char_of_prefix _ _ _ Hp) as [p' ->].
  unfold Py.path_join.
  destruct (String.prefix "/" filename) eqn:Hk.
  - destruct (first_char_of_prefix _ _ _ Hk) as [k' ->]. discriminate.
  - assert (C : (String.eqb "./faces" "" || Py.endswith "./faces" "/")%bool
                = false) by reflexivity.
    rewrite C. simpl. discriminate.
Qed.

Lemma update_keeps_paths_joined (s : t) (now : Q) (fs : FileSystem) :
  cache_paths_joined s -> cache_paths_joined (_update_face_cache s now fs).
Proof.
  intros H. unfold _update_face_cache.
  destruct (Py.ltb (now - _last_cache_update s) (_cache_ttl s)); [exact H|].
  destruct (negb (dir_exists fs)); [intros k e []|].
  destruct (listdir fs) as [files|]; [|intros k e []].
  intros k e I. simpl in I.
  destruct (DetectionFacts.rebuild_entries (faces_dir s) files _ _ I)
    as [[]|[_ [P _]]].
  exact P.
Qed.

Lemma detect_keeps_paths_joined (s : t) (now : Q) (pid : Z)
    (img : RawImage) :
  cache_paths_joined s ->
  cache_paths_joined (fst (detect_faces s now pid img)).
Proof.
  intros H. unfold detect_faces.
  destruct (negb (validate_image img)); [exact H|].
  destruct (negb (imdecode_ok img)); [exact H|].
  destruct (face_locations img) as [|[|n]]; try exact H.
  destruct (face_encodings img) as [|e [|e' l]]; try exact H.
  intros k entry I. simpl in I.
  apply PyDictFacts.in_set in I. destruct I as [E|I].
  - injection E as -> ->. reflexivity.
  - exact (H k entry I).
Qed.

Lemma register_images_keeps_paths_joined (images : list Routes.Upload) :
  forall (s : FaceService.t) (user_id pid : Z) (clock : nat -> Q) (i n : nat),
    cache_paths_joined (FaceService.face_recognition_service s) ->
    cache_paths_joined
      (FaceService.face_recognition_service
         (fst (Routes.register_images s user_id pid clock i images n))).
Proof.
  induction images as [|u images IH]; intros s user_id pid clock i n H;
    [exact H|].
  simpl. destruct (negb (Routes.base64_valid u)); [now apply IH|].
  pose proof (EnrollmentFacts.register_face_service s user_id (clock i) pid
                (Routes.image u)) as Es.
  destruct (FaceService.register_face s user_id (clock i) pid (Routes.image u))
    as [s1 result].
  simpl in Es.
  assert (H1 : cache_paths_joined (FaceService.face_recognition_service s1))
    by (rewrite Es; now apply detect_keeps_paths_joined).
  destruct (FaceService.register_success result); now apply IH.
Qed.

Section Scan.
Variable sqrtf : Q -> Q.

Lemma scan_some_entry (cache : PyDict.t CacheEntry) (probe : Encoding)
    (tol : Q) (r : Recognition) :
  scan sqrtf cache probe tol = Some r ->
  exists entry, In (r_filename r, entry) cache /\
                r_file_path r = file_path entry.
Proof.
  rewrite MatcherFacts.scan_find.
  destruct (find (Matcher.matching sqrtf probe tol) cache) as [[fn fd]|] eqn:F;
    [|discriminate].
  apply find_some in F. destruct F as [I M].
  destruct (MatcherFacts.result_for_matching sqrtf _ _ _ M) as [d [_ [_ R]]].
  rewrite R. intros H. injection H as <-. simpl. now exists fd.
Qed.

Lemma scan_some_match (cache : PyDict.t CacheEntry) (probe : Encoding)
    (tol : Q) (r : Recognition) :
  scan sqrtf cache probe tol = Some r ->
  exists entry d,
    In (r_filename r, entry) cache /\
    r_file_path r = file_path entry /\
    Numpy.face_distance sqrtf (encoding entry) probe = Some d /\
    d <= tol /\ r_confidence r = 1 - d.
Proof.
  rewrite MatcherFacts.scan_find.
  destruct (find (Matcher.matching sqrtf probe tol) cache) as [[fn fd]|] eqn:F;
    [|discriminate].
  apply find_some in F. destruct F as [I M].
  destruct (MatcherFacts.result_for_matching sqrtf _ _ _ M) as [d [E [L R]]].
  rewrite R. intros H. injection H as <-. simpl. exists fd, d. auto.
Qed.

Lemma recognize_face_entry (s s' : t) (now : Q) (fs : FileSystem)
    (img : RawImage) (r : Recognition) :
  recognize_face sqrtf s now fs img = (s', Some r) ->
  exists entry,
    In (r_filename r, entry) (_face_cache (_update_face_cache s now fs)) /\
    r_file_path r = file_path entry.
Proof.
  unfold recognize_face.
  destruct (negb (validate_image img)); [discriminate|].
  destruct (negb (imdecode_ok img)); [discriminate|].
  destruct (face_encodings img) as [|probe l]; [discriminate|].
  intros H. injection H as _ H. exact (scan_some_entry _ _ _ _ H).
Qed.
End Scan.

End PathFacts.

(** * Further properties: detection, registration of one image *)

(** X4. When [detect_faces] returns a filename, it is the filename built
    from the clock and the process id, [get_face_encoding] on the same
    image returns an encoding, and this encoding is the one cached under
    that filename; when [detect_faces] returns nothing, it leaves the
    service as it was. *)
Theorem detect_faces_agrees_with_get_face_encoding :
  forall (s : t) (now : Q) (pid : Z) (img : RawImage),
    match detect_faces s now pid img with
    | (s', Some filename) =>
        filename = unique_filename now pid /\
        exists e,
          get_face_encoding img = Some e /\
          PyDict.get (_face_cache s') filename =
            Some {| encoding := e;
                    file_path := Py.path_join (faces_dir s) filename |}
    | (s', None) => s' = s
    end.
Proof.
  intros s now pid img. unfold detect_faces, get_face_encoding.
  destruct (negb (validate_image img)); [reflexivity|].
  destruct (negb (imdecode_ok img)); [reflexivity|].
  destruct (face_locations img) as [|[|n]]; try reflexivity;
    destruct (face_encodings img) as [|e [|e' l]]; try reflexivity.
  split; [reflexivity|]. exists e. split; [reflexivity|].
  simpl. apply EnrollmentFacts.get_set_same.
Qed.

(** X5. For an image that passes detection and whose encoding has more
    than one component, [FaceService.register_face] reports "Face
    registration failed" (the test [if not encoding] raises on such an
    array) and persists no row, while the cache entry written by
    [detect_faces] for the image stays. *)
Theorem register_face_multi_component_encoding :
  forall (s : FaceService.t) (user_id : Z) (now : Q) (pid : Z)
         (img : RawImage) (e : Encoding),
    Enrollment.passes_detection img = true ->
    face_encodings img = [e] ->
    (2 <= List.length e)%nat ->
    snd (FaceService.register_face s user_id now pid img)
      = FaceService.RegisterError "Face registration failed" /\
    FaceService.face_image_repository
      (fst (FaceService.register_face s user_id now pid img))
      = FaceService.face_image_repository s /\
    PyDict.get
      (_face_cache
         (FaceService.face_recognition_service
            (fst (FaceService.register_face s user_id now pid img))))
      (unique_filename now pid)
      = Some {| encoding := e;
                file_path :=
                  Py.path_join
                    (faces_dir (FaceService.face_recognition_service s))
                    (unique_filename now pid) |}.
Proof.
  intros s user_id now pid img e Hp He Hlen.
  destruct (DetectionFacts.passes_detection_encodings img Hp)
    as [Hv [Hd _]].
  unfold FaceService.register_face.
  rewrite (DetectionFacts.detect_faces_value _ now pid img e Hp He).
  pose proof (DetectionFacts.unique_filename_nonempty now pid) as Hne.
  destruct (unique_filename now pid) as [|c fn] eqn:Efn; [congruence|].
  unfold get_face_encoding. rewrite Hv, Hd, He. simpl.
  destruct e as [|x [|y e]]; simpl in Hlen; try lia.
  simpl. repeat split; trivial.
  apply EnrollmentFacts.get_set_same.
Qed.

(** X5, a run: a photo with a two-component encoding, registered at second
    1000. *)
Lemma register_face_multi_component_encoding_witness :
  snd (FaceService.register_face
         (Routes.face_service (Samples.app [] [])) 7 1000 4242
         (Samples.photo 1 [[1; 2]]))
    = FaceService.RegisterError "Face registration failed".
Proof.
  apply (register_face_multi_component_encoding
           (Routes.face_service (Samples.app [] [])) 7 1000 4242
           (Samples.photo 1 [[1; 2]]) [1; 2]).
  - reflexivity.
  - reflexivity.
  - simpl. lia.
Defined.

(** X6. Two images that pass detection within the same second in the
    same process are saved under the same filename: the second detection
    returns the filename of the first, adds no key to the cache, and
    replaces the first image's encoding under that key. *)
Theorem same_second_detections_share_a_filename :
  forall (s : t) (now1 now2 : Q) (pid : Z) (img1 img2 : RawImage)
         (e1 e2 : Encoding),
    Enrollment.passes_detection img1 = true -> face_encodings img1 = [e1] ->
    Enrollment.passes_detection img2 = true -> face_encodings img2 = [e2] ->
    Py.int_of_float now1 = Py.int_of_float now2 ->
    snd (detect_faces (fst (detect_faces s now1 pid img1)) now2 pid img2)
      = snd (detect_faces s now1 pid img1) /\
    PyDict.keys
      (_face_cache
         (fst (detect_faces (fst (detect_faces s now1 pid img1)) now2 pid
                 img2)))
      = PyDict.keys (_face_cache (fst (detect_faces s now1 pid img1))) /\
    PyDict.get
      (_face_cache
         (fst (detect_faces (fst (detect_faces s now1 pid img1)) now2 pid
                 img2)))
      (unique_filename now1 pid)
      = Some {| encoding := e2;
                file_path :=
                  Py.path_join (faces_dir s) (unique_filename now1 pid) |}.
Proof.
  intros s now1 now2 pid img1 img2 e1 e2 Hp1 He1 Hp2 He2 Hsec.
  assert (Efn : unique_filename now2 pid = unique_filename now1 pid)
    by (unfold unique_filename; now rewrite Hsec).
  rewrite (DetectionFacts.detect_faces_value s now1 pid img1 e1 Hp1 He1).
  cbn [fst snd].
  rewrite (DetectionFacts.detect_faces_value _ now2 pid img2 e2 Hp2 He2).
  cbn [fst snd]. rewrite Efn. simpl.
  split; [reflexivity|]. split.
  - apply PyDictFacts.keys_set_existing. apply PyDictFacts.key_in_set.
  - apply EnrollmentFacts.get_set_same.
Qed.

(** X6, a run: two sample photos detected at seconds 1000.2 and 1000.9. *)
Lemma same_second_detections_share_a_filename_witness :
  snd (detect_faces
         (fst (detect_faces (Samples.service [] (6#10)) (10002#10) 4242
                 (Samples.one_face 1)))
         (10009#10) 4242 (Samples.one_face 2))
    = snd (detect_faces (Samples.service [] (6#10)) (10002#10) 4242
             (Samples.one_face 1)).
Proof.
  apply (same_second_detections_share_a_filename
           (Samples.service [] (6#10)) (10002#10) (10009#10) 4242
           (Samples.one_face 1) (Samples.one_face 2) [1] [2]);
    reflexivity.
Defined.

(** * Further properties: the cache rebuild and the scan *)

(** X7. After a due refresh over a directory that lists without error,
    the refresh time is the clock reading, the cache has one entry per
    key and at most one entry per listed file, and every entry comes from
    the listing: its key is a listed name ending (case-insensitively) in
    .png, .jpg or .jpeg, its encoding is the first one found in that
    file, and its path is the directory joined with the name. *)
Theorem rebuilt_cache_comes_from_listing :
  forall (s : t) (now : Q) (files : list (string * ReadResult)),
    Refresh.stale s now = true ->
    _last_cache_update (_update_face_cache s now (Refresh.listing files))
      = now /\
    NoDup
      (PyDict.keys
         (_face_cache (_update_face_cache s now (Refresh.listing files)))) /\
    (PyDict.len
       (_face_cache (_update_face_cache s now (Refresh.listing files)))
     <= List.length files)%nat /\
    (forall filename entry,
        In (filename, entry)
          (_face_cache (_update_face_cache s now (Refresh.listing files))) ->
        Py.endswith_any (Py.lower filename) image_suffixes = true /\
        file_path entry = Py.path_join (faces_dir s) filename /\
        exists encs, In (filename, ReadImage (encoding entry :: encs)) files).
Proof.
  intros s now files Hstale.
  rewrite (RefreshFacts.update_when_stale s now _ Hstale). simpl.
  split; [reflexivity|]. split.
  - apply DetectionFacts.rebuild_nodup. constructor.
  - split.
    + exact (DetectionFacts.rebuild_len (faces_dir s) files PyDict.empty).
    + intros filename entry H.
      destruct (DetectionFacts.rebuild_entries (faces_dir s) files _ _ H)
        as [[]|F].
      exact F.
Qed.

(** X7, a run: a listing with a photo, a text file and an unreadable
    image. *)
Lemma rebuilt_cache_comes_from_listing_witness :
  PyDict.keys
    (_face_cache
       (_update_face_cache (Samples.service Samples.far_first (6#10)) 1000
          (Refresh.listing
             [("c.JPG"%string, ReadImage [[1#4]]);
              ("notes.txt"%string, ReadImage [[1]]);
              ("d.png"%string, ReadRaises)])))
    = ["c.JPG"%string] /\
  NoDup
    (PyDict.keys
       (_face_cache
          (_update_face_cache (Samples.service Samples.far_first (6#10)) 1000
             (Refresh.listing
                [("c.JPG"%string, ReadImage [[1#4]]);
                 ("notes.txt"%string, ReadImage [[1]]);
                 ("d.png"%string, ReadRaises)])))).
Proof.
  split; [reflexivity|].
  apply (rebuilt_cache_comes_from_listing
           (Samples.service Samples.far_first (6#10)) 1000
           [("c.JPG"%string, ReadImage [[1#4]]);
            ("notes.txt"%string, ReadImage [[1]]);
            ("d.png"%string, ReadRaises)]).
  reflexivity.
Defined.

(** X8. A due refresh that fails, because the directory is missing or
    its listing raises, leaves the service due: at every later clock
    reading the next call rebuilds again. *)
Theorem failed_refresh_stays_due :
  forall (s : t) (now now' : Q) (fs : FileSystem),
    Refresh.stale s now = true ->
    dir_exists fs = false \/ listdir fs = None ->
    now <= now' ->
    Refresh.stale (_update_face_cache s now fs) now' = true /\
    _face_cache (_update_face_cache s now fs) = PyDict.empty.
Proof.
  intros s now now' fs Hstale Hfail Hle.
  rewrite (RefreshFacts.update_when_stale s now fs Hstale).
  assert (E : (if negb (dir_exists fs) then with_cache s PyDict.empty
               else match listdir fs with
                    | None => with_cache s PyDict.empty
                    | Some files =>
                        with_cache_at s
                          (fold_left (cache_file (faces_dir s)) files
                             PyDict.empty) now
                    end) = with_cache s PyDict.empty).
  { destruct Hfail as [-> | ->]; [reflexivity|].
    destruct (negb (dir_exists fs)); reflexivity. }
  rewrite E. split; [|reflexivity].
  apply DetectionFacts.stale_spec. apply DetectionFacts.stale_spec in Hstale.
  simpl. lra.
Qed.

(** X8, a run: the sample service over the unreadable directory, due at
    second 1000 and asked again at second 1001. *)
Lemma failed_refresh_stays_due_witness :
  Refresh.stale
    (_update_face_cache (Samples.service Samples.far_first (6#10)) 1000
       Samples.unreadable_dir) 1001 = true.
Proof.
  apply (failed_refresh_stays_due
           (Samples.service Samples.far_first (6#10)) 1000 1001
           Samples.unreadable_dir).
  - reflexivity.
  - right. reflexivity.
  - unfold Qle; simpl; lia.
Defined.

(** X9. Within the time-to-live, [recognize_face] does not consult the
    directory: it leaves the service unchanged and its answer is the same
    whatever the directory holds, so a file removed from or added to the
    directory has no effect on recognition until the cache is due. *)
Theorem recognition_within_ttl_ignores_directory :
  forall (sqrtf : Q -> Q) (s : t) (now : Q) (fs fs' : FileSystem)
         (img : RawImage),
    Refresh.stale s now = false ->
    fst (recognize_face sqrtf s now fs img) = s /\
    recognize_face sqrtf s now fs' img = recognize_face sqrtf s now fs img.
Proof.
  intros sqrtf s now fs fs' img H. unfold recognize_face.
  rewrite !(DetectionFacts.update_when_fresh s now _ H).
  split; [|reflexivity].
  destruct (negb (validate_image img)); [reflexivity|].
  destruct (negb (imdecode_ok img)); [reflexivity|].
  destruct (face_encodings img); reflexivity.
Qed.

(** X9, a run: the sample service at second 100 over the unreadable
    directory and over an empty one. *)
Lemma recognition_within_ttl_ignores_directory_witness :
  recognize_face Numpy.exact_sqrt (Samples.service Samples.far_first (6#10))
    100 (Refresh.listing []) (Samples.one_face 0)
  = recognize_face Numpy.exact_sqrt
      (Samples.service Samples.far_first (6#10)) 100 Samples.unreadable_dir
      (Samples.one_face 0).
Proof.
  apply (recognition_within_ttl_ignores_directory Numpy.exact_sqrt
           (Samples.service Samples.far_first (6#10)) 100
           Samples.unreadable_dir (Refresh.listing []) (Samples.one_face 0)).
  reflexivity.
Defined.

(** X10. The scan answers "no match" exactly when no cached candidate is
    within tolerance of the probe: it never misses a candidate within
    tolerance and never returns one beyond it. *)
Theorem scan_finds_nothing_iff_no_candidate_matches :
  forall (sqrtf : Q -> Q) (cache : PyDict.t CacheEntry) (probe : Encoding)
         (tol : Q),
    scan sqrtf cache probe tol = None <->
    ~ Matcher.has_match sqrtf cache probe tol.
Proof.
  intros sqrtf cache probe tol. rewrite MatcherFacts.scan_none. split.
  - intros A [fn [fd [d [I [E L]]]]].
    assert (M : Matcher.matching sqrtf probe tol (fn, fd) = true)
      by (apply MatcherFacts.matching_true; exists d; auto).
    rewrite (A _ I) in M. discriminate.
  - intros N [fn fd] I.
    destruct (Matcher.matching sqrtf probe tol (fn, fd)) eqn:M; [|reflexivity].
    exfalso. apply N. apply MatcherFacts.matching_true in M.
    destruct M as [d [E L]]. exists fn, fd, d. auto.
Qed.

(** * Further properties: the enrollment route *)

(** X11. Once [/register] has admitted a batch (3 to MAX_IMAGES_PER_USER
    images, a known user without faces), the table grows by exactly one
    row per image counted as successful, each owned by the user, not
    primary and stored under [faces/]; the count in the answer, be it the
    201 or the "Only k valid images" error, is the number of rows
    persisted. *)
Theorem register_route_persists_what_it_counts :
  forall (app : Routes.App) (session_user : Z) (user : User.t)
         (images : list Routes.Upload) (clock : nat -> Q),
    (3 <= List.length images)%nat ->
    (Z.of_nat (List.length images) <= Routes.MAX_IMAGES_PER_USER app)%Z ->
    Routes.get_user_by_id app session_user = Some user ->
    FaceService.get_user_faces (Routes.face_service app) (User.id user) = [] ->
    exists added,
      Enrollment.rows
        (fst (Routes.register_face app (Some session_user)
                (Routes.RegisterImages images) clock))
        = (Enrollment.rows app ++ added)%list /\
      (List.length added <= List.length images)%nat /\
      Forall (Table.enrolled_for (User.id user)) added /\
      snd (Routes.register_face app (Some session_user)
             (Routes.RegisterImages images) clock)
        = if (List.length added <? 3)%nat then
            ErrorHandler.handle_validation_error
              [("Only " ++ Py.str_of_int (Z.of_nat (List.length added))
                  ++ " valid images processed, minimum 3 required")%string]
          else
            (ErrorHandler.RegistrationDone "Face registration successful"
               (List.length added) (User.id user), 201%nat).
Proof.
  intros app session_user user images clock Hmin Hmax Huser Hnone.
  unfold Routes.register_face.
  destruct (Z.ltb_spec (Z.of_nat (List.length images)) 3); [lia|].
  destruct (Z.ltb_spec (Routes.MAX_IMAGES_PER_USER app)
              (Z.of_nat (List.length images))); [lia|].
  rewrite Huser, Hnone.
  destruct (BatchFacts.register_images_rows images (Routes.face_service app)
              (User.id user) (Routes.pid app) clock 0 0)
    as [added [E [L [B [F _]]]]].
  destruct (Routes.register_images (Routes.face_service app) (User.id user)
              (Routes.pid app) clock 0 images 0) as [s k].
  simpl in E, L. rewrite Nat.add_0_r in L. subst k.
  exists added. split; [|split; [exact B|split; [exact F|]]].
  - destruct (List.length added <? 3)%nat; exact E.
  - destruct (List.length added <? 3)%nat; reflexivity.
Qed.

(** X11, a run: the sample batch of five uploads of which two show a
    face leaves two rows. *)
Lemma register_route_persists_what_it_counts_witness :
  exists added,
    Enrollment.rows
      (fst (Routes.register_face (Samples.app [] []) (Some 7%Z)
              (Routes.RegisterImages Samples.two_of_five) Samples.clock))
      = (Enrollment.rows (Samples.app [] []) ++ added)%list /\
    (List.length added <= List.length Samples.two_of_five)%nat /\
    Forall (Table.enrolled_for (User.id Samples.ann)) added /\
    snd (Routes.register_face (Samples.app [] []) (Some 7%Z)
           (Routes.RegisterImages Samples.two_of_five) Samples.clock)
      = if (List.length added <? 3)%nat then
          ErrorHandler.handle_validation_error
            [("Only " ++ Py.str_of_int (Z.of_nat (List.length added))
                ++ " valid images processed, minimum 3 required")%string]
        else
          (ErrorHandler.RegistrationDone "Face registration successful"
             (List.length added) (User.id Samples.ann), 201%nat).
Proof.
  apply (register_route_persists_what_it_counts (Samples.app [] []) 7
           Samples.ann Samples.two_of_five Samples.clock).
  - simpl. lia.
  - simpl. lia.
  - reflexivity.
  - reflexivity.
Defined.

(** X13. [/register] changes nothing unless it gets to process the
    batch: when it answers 401, 404 or 409, or when the number of images
    is below 3 or above MAX_IMAGES_PER_USER, the services and the table
    are exactly as before. *)
Theorem register_route_rejections_change_nothing :
  forall (app : Routes.App) (session_user_id : option Z)
         (data : Routes.RegisterData) (clock : nat -> Q),
    ErrorHandler.status
      (snd (Routes.register_face app session_user_id data clock)) = 401%nat
    \/ ErrorHandler.status
         (snd (Routes.register_face app session_user_id data clock)) = 404%nat
    \/ ErrorHandler.status
         (snd (Routes.register_face app session_user_id data clock)) = 409%nat
    \/ (exists images,
           data = Routes.RegisterImages images /\
           ((List.length images < 3)%nat \/
            (Routes.MAX_IMAGES_PER_USER app
             < Z.of_nat (List.length images))%Z)) ->
    fst (Routes.register_face app session_user_id data clock) = app.
Proof.
  intros app session data clock H. unfold Routes.register_face in *.
  destruct session as [su|]; [|reflexivity].
  destruct data as [| | |images]; try reflexivity.
  destruct (Z.ltb_spec (Z.of_nat (List.length images)) 3); [reflexivity|].
  destruct (Z.ltb_spec (Routes.MAX_IMAGES_PER_USER app)
              (Z.of_nat (List.length images))); [reflexivity|].
  destruct (Routes.get_user_by_id app su) as [user|]; [|reflexivity].
  destruct (FaceService.get_user_faces (Routes.face_service app)
              (User.id user)); [|reflexivity].
  exfalso.
  destruct (Routes.register_images (Routes.face_service app) (User.id user)
              (Routes.pid app) clock 0 images 0) as [s k].
  destruct (k <? 3)%nat; simpl in H;
    destruct H as [H|[H|[H|[images' [E [Hl|Hl]]]]]];
    try discriminate; injection E as <-; lia.
Qed.

(** X13, a run: a batch of two images is turned away before any image is
    looked at. *)
Lemma register_route_rejections_change_nothing_witness :
  fst (Routes.register_face (Samples.app [] []) (Some 7%Z)
         (Routes.RegisterImages
            [Samples.upload (Samples.one_face 1);
             Samples.upload (Samples.one_face 2)]) Samples.clock)
    = Samples.app [] [].
Proof.
  apply (register_route_rejections_change_nothing (Samples.app [] [])
           (Some 7%Z)
           (Routes.RegisterImages
              [Samples.upload (Samples.one_face 1);
               Samples.upload (Samples.one_face 2)]) Samples.clock).
  right. right. right.
  exists [Samples.upload (Samples.one_face 1);
          Samples.upload (Samples.one_face 2)].
  split; [reflexivity|]. left. simpl. lia.
Defined.

(** * Further properties: deletion and replacement *)

(** X14. On a table with distinct ids, [FaceService.delete_face_image]
    succeeds exactly when a row with that id exists and belongs to the
    user; it then removes that row and nothing else, and in every other
    case the table is unchanged. It never touches the recognition cache,
    so a deleted face stays in the cache until the next rebuild. *)
Theorem delete_face_image_removes_only_the_owned_row :
  forall (s : FaceService.t) (image_id user_id : Z),
    Table.unique_ids (FaceService.face_image_repository s) ->
    FaceService.face_recognition_service
      (fst (FaceService.delete_face_image s image_id user_id))
      = FaceService.face_recognition_service s /\
    (snd (FaceService.delete_face_image s image_id user_id)
       = FaceService.DeleteOk <->
     exists row,
       In row (FaceService.face_image_repository s) /\
       FaceImage.id row = image_id /\ FaceImage.user_id row = user_id) /\
    (forall row,
        In row
          (FaceService.face_image_repository
             (fst (FaceService.delete_face_image s image_id user_id))) <->
        In row (FaceService.face_image_repository s) /\
        ~ (snd (FaceService.delete_face_image s image_id user_id)
             = FaceService.DeleteOk /\ FaceImage.id row = image_id)).
Proof.
  intros s image_id user_id N. unfold FaceService.delete_face_image.
  destruct (FaceImageRepository.find_by_id
              (FaceService.face_image_repository s) image_id)
    as [f|] eqn:F.
  - destruct (TableFacts.find_by_id_some _ _ _ F) as [If Ef].
    destruct (Z.eqb_spec (FaceImage.user_id f) user_id) as [O|O]; simpl.
    + split; [reflexivity|]. split.
      * split; [intros _; exists f; auto|reflexivity].
      * intros row. unfold FaceImageRepository.delete.
        rewrite filter_In, negb_true_iff, Z.eqb_neq, Ef. tauto.
    + split; [reflexivity|]. split.
      * split; [discriminate|]. intros [row [I [E Ow]]].
        exfalso. apply O. rewrite <- Ow. f_equal.
        apply (TableFacts.same_id_same_row _ f row N If I). congruence.
      * intros row. split; [intros I; split; [exact I|]|tauto].
        intros [C _]. discriminate.
  - simpl. split; [reflexivity|]. split.
    + split; [discriminate|]. intros [row [I [E _]]].
      exfalso. exact (TableFacts.find_by_id_none _ _ F row I E).
    + intros row. split; [intros I; split; [exact I|]|tauto].
      intros [C _]. discriminate.
Qed.

(** X14, a run: user 7 deletes face 1 of the sample table. *)
Lemma delete_face_image_removes_only_the_owned_row_witness :
  snd (FaceService.delete_face_image
         (Routes.face_service (Samples.app [] Samples.three_rows)) 1 7)
    = FaceService.DeleteOk.
Proof.
  apply (delete_face_image_removes_only_the_owned_row
           (Routes.face_service (Samples.app [] Samples.three_rows)) 1 7).
  - unfold Table.unique_ids. simpl.
    repeat constructor; simpl; intuition discriminate.
  - exists (Samples.row 1 7 "faces/a.jpg").
    split; [left; reflexivity|]. split; reflexivity.
Defined.

(** X15. For a logged-in, known user, [DELETE /images/<id>] answers 404
    when no row has the id, 403 when the row found belongs to someone
    else, and 200 when it is the user's own; unless it answers 200 the
    application is unchanged. Without a session it answers 401 and changes
    nothing. *)
Theorem delete_route_status :
  forall (app : Routes.App) (session_user : Z) (user : User.t)
         (image_id : Z),
    Routes.get_user_by_id app session_user = Some user ->
    snd (snd (Routes.delete_face_image app (Some session_user) image_id))
      = match FaceImageRepository.find_by_id (Enrollment.rows app) image_id
        with
        | None => 404%nat
        | Some row =>
            if Table.owned_by (User.id user) row then 200%nat else 403%nat
        end /\
    (snd (snd (Routes.delete_face_image app (Some session_user) image_id))
       <> 200%nat ->
     fst (Routes.delete_face_image app (Some session_user) image_id) = app)
    /\
    Routes.delete_face_image app None image_id
      = (app, Routes.json_of ErrorHandler.handle_authentication_error).
Proof.
  intros app session_user user image_id Huser.
  unfold Routes.delete_face_image, FaceService.delete_face_image,
    Enrollment.rows, Table.owned_by.
  rewrite Huser.
  destruct (FaceImageRepository.find_by_id
              (FaceService.face_image_repository (Routes.face_service app))
              image_id) as [row|].
  - destruct (FaceImage.user_id row =? User.id user)%Z; simpl.
    + split; [reflexivity|]. split; [congruence|reflexivity].
    + split; [reflexivity|]. split; [|reflexivity].
      intros _. destruct app as [[frs rows] users mx pid]. reflexivity.
  - simpl. split; [reflexivity|]. split; [|reflexivity].
    intros _. destruct app as [[frs rows] users mx pid]. reflexivity.
Qed.

(** X15, a run: user 7 asks to delete face 2, which belongs to user 8. *)
Lemma delete_route_status_witness :
  snd (snd (Routes.delete_face_image (Samples.app [] Samples.three_rows)
              (Some 7%Z) 2)) = 403%nat.
Proof.
  apply (delete_route_status (Samples.app [] Samples.three_rows) 7
           Samples.ann 2).
  reflexivity.
Defined.

(** X16. [/update] deletes before it validates the new images: once the
    batch is admitted (3 to MAX_IMAGES_PER_USER images, a known user), and
    the table has distinct ids, the table afterwards holds the rows of the
    other users, in their order, followed by one new row per image
    counted as successful. All previous rows of the user are gone, also
    when fewer than three new images are valid and the answer is the
    validation error. *)
Theorem update_route_replaces_before_it_validates :
  forall (app : Routes.App) (session_user : Z) (user : User.t)
         (images : list Routes.Upload) (clock : nat -> Q),
    Table.unique_ids (Enrollment.rows app) ->
    (3 <= List.length images)%nat ->
    (Z.of_nat (List.length images) <= Routes.MAX_IMAGES_PER_USER app)%Z ->
    Routes.get_user_by_id app session_user = Some user ->
    exists added,
      Enrollment.rows
        (fst (Routes.update_face_images app (Some session_user)
                (Routes.RegisterImages images) clock))
        = (filter (fun row => negb (Table.owned_by (User.id user) row))
             (Enrollment.rows app) ++ added)%list /\
      Forall (Table.enrolled_for (User.id user)) added /\
      snd (Routes.update_face_images app (Some session_user)
             (Routes.RegisterImages images) clock)
        = if (List.length added <? 3)%nat then
            ErrorHandler.handle_validation_error
              [("Only " ++ Py.str_of_int (Z.of_nat (List.length added))
                  ++ " valid images processed, minimum 3 required")%string]
          else
            (ErrorHandler.RegistrationDone "Face images updated successfully"
               (List.length added) (User.id user), 200%nat).
Proof.
  intros app session_user user images clock N Hmin Hmax Huser.
  unfold Routes.update_face_images.
  destruct (Z.ltb_spec (Z.of_nat (List.length images)) 3); [lia|].
  destruct (Z.ltb_spec (Routes.MAX_IMAGES_PER_USER app)
              (Z.of_nat (List.length images))); [lia|].
  rewrite Huser. cbv zeta.
  destruct (DeleteFacts.delete_existing_rows
              (FaceService.get_user_faces (Routes.face_service app)
                 (User.id user))
              (Routes.face_service app) (User.id user)) as [Ed _].
  { intros f r If Ir E.
    unfold FaceService.get_user_faces, FaceImageRepository.find_by_user_id
      in If.
    apply filter_In in If. destruct If as [If Of].
    rewrite (TableFacts.same_id_same_row _ r f N Ir If E).
    now apply Z.eqb_eq. }
  unfold Enrollment.rows in N.
  pose proof (DeleteFacts.delete_own_rows _ (User.id user) N) as Eo.
  fold (FaceService.get_user_faces (Routes.face_service app) (User.id user))
    in Eo.
  rewrite Eo in Ed. clear Eo.
  destruct (BatchFacts.register_images_rows images
              (Routes.delete_existing (Routes.face_service app)
                 (User.id user)
                 (FaceService.get_user_faces (Routes.face_service app)
                    (User.id user)))
              (User.id user) (Routes.pid app) clock 0 0)
    as [added [E [L [_ [F _]]]]].
  destruct (Routes.register_images
              (Routes.delete_existing (Routes.face_service app)
                 (User.id user)
                 (FaceService.get_user_faces (Routes.face_service app)
                    (User.id user)))
              (User.id user) (Routes.pid app) clock 0 images 0) as [s k].
  simpl in E, L. rewrite Nat.add_0_r in L. subst k.
  exists added. split; [|split; [exact F|]].
  - unfold Enrollment.rows.
    destruct (List.length added <? 3)%nat; simpl; rewrite E, Ed;
      reflexivity.
  - destruct (List.length added <? 3)%nat; reflexivity.
Qed.

(** X16, a run: user 7, who has two faces in the sample table, sends
    three uploads without a face: the answer is the validation error and
    only the row of user 8 is left. *)
Lemma update_route_replaces_before_it_validates_witness :
  exists added,
    Enrollment.rows
      (fst (Routes.update_face_images (Samples.app [] Samples.three_rows)
              (Some 7%Z)
              (Routes.RegisterImages
                 [Samples.upload Samples.no_face;
                  Samples.upload Samples.no_face;
                  Samples.upload Samples.no_face]) Samples.clock))
      = (filter
           (fun row => negb (Table.owned_by (User.id Samples.ann) row))
           (Enrollment.rows (Samples.app [] Samples.three_rows))
         ++ added)%list /\
    Forall (Table.enrolled_for (User.id Samples.ann)) added /\
    snd (Routes.update_face_images (Samples.app [] Samples.three_rows)
           (Some 7%Z)
           (Routes.RegisterImages
              [Samples.upload Samples.no_face;
               Samples.upload Samples.no_face;
               Samples.upload Samples.no_face]) Samples.clock)
      = if (List.length added <? 3)%nat then
          ErrorHandler.handle_validation_error
            [("Only " ++ Py.str_of_int (Z.of_nat (List.length added))
                ++ " valid images processed, minimum 3 required")%string]
        else
          (ErrorHandler.RegistrationDone "Face images updated successfully"
             (List.length added) (User.id Samples.ann), 200%nat).
Proof.
  apply (update_route_replaces_before_it_validates
           (Samples.app [] Samples.three_rows) 7 Samples.ann
           [Samples.upload Samples.no_face;
            Samples.upload Samples.no_face;
            Samples.upload Samples.no_face] Samples.clock).
  - unfold Table.unique_ids. simpl.
    repeat constructor; simpl; intuition discriminate.
  - simpl. lia.
  - simpl. lia.
  - reflexivity.
Defined.

(** * Further properties: request validation and recognition *)

(** X18. [validate_json_data] accepts exactly the dicts in which every
    required field is present with a value other than [None]; it reports
    at most one error message, and none exactly when it accepts. *)
Theorem validate_json_data_accepts_iff :
  forall (data : PyValue.t) (required_fields : list string),
    (fst (InputValidator.validate_json_data data required_fields) = true <->
     exists d,
       data = PyValue.VDict d /\
       forall field, In field required_fields ->
         exists v, PyDict.get d field = Some v /\ v <> PyValue.VNone) /\
    (fst (InputValidator.validate_json_data data required_fields) = true <->
     snd (InputValidator.validate_json_data data required_fields) = []) /\
    (List.length
       (snd (InputValidator.validate_json_data data required_fields))
     <= 1)%nat.
Proof.
  intros data required.
  assert (Hm : forall d field,
             InputValidator.field_missing d field = false <->
             exists v, PyDict.get d field = Some v /\ v <> PyValue.VNone).
  { intros d field. unfold InputValidator.field_missing.
    destruct (PyDict.get d field) as [v|]; split.
    - intros H. exists v. split; [reflexivity|].
      intros ->. discriminate.
    - intros [v' [E Hv]]. injection E as <-.
      destruct v; try reflexivity. congruence.
    - discriminate.
    - intros [v' [E _]]. discriminate. }
  unfold InputValidator.validate_json_data.
  destruct data as [| | | | | |d];
    try (split; [split; [discriminate|intros [d [E _]]; discriminate]
                |split; [split; discriminate|simpl; lia]]).
  destruct (filter (InputValidator.field_missing d) required) as [|m ms] eqn:F;
    simpl.
  - split; [|split; [tauto|lia]].
    split; [intros _|reflexivity].
    exists d. split; [reflexivity|]. intros field I. apply Hm.
    exact (proj1 (DeleteFacts.filter_none _ _) F field I).
  - split; [|split; [split; discriminate|lia]].
    split; [discriminate|].
    intros [d' [E A]]. injection E as <-.
    assert (C : filter (InputValidator.field_missing d) required = []).
    { apply DeleteFacts.filter_none. intros field I. apply Hm. now apply A. }
    congruence.
Qed.

(** X19. With the default faces directory [./faces], [/recognize] never
    answers 200: the cache stores each path as the directory joined with
    the filename ([./faces/...]) while the table stores ["faces/" +
    filename], so the lookup of a matched path in the table finds no row
    and the answer is the 404 "Face not recognized". The two hypotheses on
    the paths hold in every state the services produce (the cache is
    written only by the rebuild and by [detect_faces], the table only by
    [FaceService.register_face]). *)
Theorem default_directory_recognition_never_resolves :
  forall (sqrtf : Q -> Q) (app : Routes.App) (data : Routes.RecognizeData)
         (now : Q) (fs : FileSystem),
    faces_dir (FaceService.face_recognition_service (Routes.face_service app))
      = "./faces"%string ->
    Paths.cache_paths_joined
      (FaceService.face_recognition_service (Routes.face_service app)) ->
    Paths.row_paths_relative (Enrollment.rows app) ->
    ErrorHandler.status (snd (Routes.recognize_face sqrtf app data now fs))
      <> 200%nat /\
    (forall image_data,
        data = Routes.RecognizeImage image_data ->
        Routes.base64_valid image_data = true ->
        snd (Routes.recognize_face sqrtf app data now fs)
          = ErrorHandler.handle_not_found_error "Face not recognized").
Proof.
  intros sqrtf app data now fs Hdir Hcache Hrows.
  assert (Hnf : forall image_data,
             data = Routes.RecognizeImage image_data ->
             Routes.base64_valid image_data = true ->
             snd (Routes.recognize_face sqrtf app data now fs)
               = ErrorHandler.handle_not_found_error "Face not recognized").
  { intros image_data -> Hb.
    unfold Routes.recognize_face, FaceService.recognize_face.
    rewrite Hb. simpl.
    destruct (recognize_face sqrtf
                (FaceService.face_recognition_service
                   (Routes.face_service app)) now fs
                (Routes.image image_data)) as [frs [r|]] eqn:R;
      [|reflexivity].
    destruct (PathFacts.recognize_face_entry sqrtf _ _ _ _ _ _ R)
      as [entry [I P]].
    pose proof (PathFacts.update_keeps_paths_joined _ now fs Hcache _ _ I)
      as J.
    assert (Hd : faces_dir
                   (_update_face_cache
                      (FaceService.face_recognition_service
                         (Routes.face_service app)) now fs) = "./faces"%string).
    { unfold _update_face_cache.
      destruct (Py.ltb _ _); [exact Hdir|].
      destruct (negb (dir_exists fs)); [exact Hdir|].
      destruct (listdir fs); exact Hdir. }
    rewrite Hd in J.
    destruct (FaceImageRepository.find_by_file_path
                (FaceService.face_image_repository (Routes.face_service app))
                (r_file_path r)) as [row|] eqn:F; [|reflexivity].
    exfalso. unfold FaceImageRepository.find_by_file_path in F.
    apply find_some in F. destruct F as [Ir Er].
    apply String.eqb_eq in Er.
    apply (PathFacts.relative_path_is_not_joined (FaceImage.file_path row)
             (r_filename r) (Hrows row Ir)).
    congruence. }
  split; [|exact Hnf].
  destruct data as [| |image_data]; try (simpl; discriminate).
  destruct (Routes.base64_valid image_data) eqn:Hb.
  - rewrite (Hnf image_data eq_refl Hb). simpl. discriminate.
  - unfold Routes.recognize_face. rewrite Hb. simpl. discriminate.
Qed.

(** X19, a run: a service over [./faces] whose cache holds the file that
    backs the only row of the table; the probe is at distance 0 of the
    cached face and the answer is still the 404. *)
Lemma default_directory_recognition_never_resolves_witness :
  snd (Routes.recognize_face Numpy.exact_sqrt
         {| Routes.face_service :=
              {| FaceService.face_recognition_service :=
                   {| faces_dir := "./faces"; tolerance := 6#10;
                      _face_cache :=
                        [("a.jpg"%string,
                          {| encoding := [0];
                             file_path := "./faces/a.jpg" |})];
                      _last_cache_update := 0; _cache_ttl := 300 |};
                 FaceService.face_image_repository :=
                   [Samples.row 1 7 "faces/a.jpg"] |};
            Routes.users := [Samples.ann];
            Routes.MAX_IMAGES_PER_USER := 5;
            Routes.pid := 4242 |}
         (Routes.RecognizeImage (Samples.upload (Samples.one_face 0)))
         100 Samples.unreadable_dir)
    = ErrorHandler.handle_not_found_error "Face not recognized".
Proof.
  apply (default_directory_recognition_never_resolves Numpy.exact_sqrt
           {| Routes.face_service :=
                {| FaceService.face_recognition_service :=
                     {| faces_dir := "./faces"; tolerance := 6#10;
                        _face_cache :=
                          [("a.jpg"%string,
                            {| encoding := [0];
                               file_path := "./faces/a.jpg" |})];
                        _last_cache_update := 0; _cache_ttl := 300 |};
                   FaceService.face_image_repository :=
                     [Samples.row 1 7 "faces/a.jpg"] |};
              Routes.users := [Samples.ann];
              Routes.MAX_IMAGES_PER_USER := 5;
              Routes.pid := 4242 |}
           (Routes.RecognizeImage (Samples.upload (Samples.one_face 0)))
           100 Samples.unreadable_dir) with
    (image_data := Samples.upload (Samples.one_face 0)).
  - reflexivity.
  - intros filename entry [H|[]]. injection H as <- <-. reflexivity.
  - intros row [<-|[]]. reflexivity.
  - reflexivity.
  - reflexivity.
Defined.

(** X20. The two path forms are kept by the operations that write them:
    after [/register], whatever it answers, every cache entry still
    carries the faces directory joined with its filename and every row
    still carries a path starting with [faces/]; and a cache refresh keeps
    the form of the cache paths. The empty service satisfies both. *)
Theorem path_forms_are_kept :
  forall (app : Routes.App) (session_user_id : option Z)
         (data : Routes.RegisterData) (clock : nat -> Q) (now : Q)
         (fs : FileSystem),
    Paths.cache_paths_joined
      (FaceService.face_recognition_service (Routes.face_service app)) ->
    Paths.row_paths_relative (Enrollment.rows app) ->
    Paths.cache_paths_joined
      (FaceService.face_recognition_service
         (Routes.face_service
            (fst (Routes.register_face app session_user_id data clock)))) /\
    Paths.row_paths_relative
      (Enrollment.rows
         (fst (Routes.register_face app session_user_id data clock))) /\
    Paths.cache_paths_joined
      (_update_face_cache
         (FaceService.face_recognition_service (Routes.face_service app))
         now fs).
Proof.
  intros app session data clock now fs Hc Hr.
  split; [|split; [|now apply PathFacts.update_keeps_paths_joined]].
  - unfold Routes.register_face.
    destruct session as [su|]; [|exact Hc].
    destruct data as [| | |images]; try exact Hc.
    destruct (Z.of_nat (List.length images) <? 3)%Z; [exact Hc|].
    destruct (Routes.MAX_IMAGES_PER_USER app <? Z.of_nat (List.length images))%Z;
      [exact Hc|].
    destruct (Routes.get_user_by_id app su) as [user|]; [|exact Hc].
    destruct (FaceService.get_user_faces (Routes.face_service app)
                (User.id user)); [|exact Hc].
    pose proof (PathFacts.register_images_keeps_paths_joined images
                  (Routes.face_service app) (User.id user) (Routes.pid app)
                  clock 0 0 Hc) as H.
    destruct (Routes.register_images (Routes.face_service app) (User.id user)
                (Routes.pid app) clock 0 images 0) as [s k].
    destruct (k <? 3)%nat; exact H.
  - unfold Routes.register_face.
    destruct session as [su|]; [|exact Hr].
    destruct data as [| | |images]; try exact Hr.
    destruct (Z.of_nat (List.length images) <? 3)%Z; [exact Hr|].
    destruct (Routes.MAX_IMAGES_PER_USER app <? Z.of_nat (List.length images))%Z;
      [exact Hr|].
    destruct (Routes.get_user_by_id app su) as [user|]; [|exact Hr].
    destruct (FaceService.get_user_faces (Routes.face_service app)
                (User.id user)); [|exact Hr].
    destruct (BatchFacts.register_images_rows images (Routes.face_service app)
                (User.id user) (Routes.pid app) clock 0 0)
      as [added [E [_ [_ [F _]]]]].
    destruct (Routes.register_images (Routes.face_service app) (User.id user)
                (Routes.pid app) clock 0 images 0) as [s k].
    simpl in E.
    assert (H : Paths.row_paths_relative (FaceService.face_image_repository s)).
    { intros row I. rewrite E in I. apply in_app_or in I.
      destruct I as [I|I]; [exact (Hr row I)|].
      rewrite Forall_forall in F. exact (proj2 (proj2 (F row I))). }
    destruct (k <? 3)%nat; exact H.
Qed.

(** X20, a run: the sample batch of three good photos registered into the
    empty application. *)
Lemma path_forms_are_kept_witness :
  Paths.row_paths_relative
    (Enrollment.rows
       (fst (Routes.register_face (Samples.app [] []) (Some 7%Z)
               (Routes.RegisterImages Samples.three_good) Samples.clock))).
Proof.
  apply (path_forms_are_kept (Samples.app [] []) (Some 7%Z)
           (Routes.RegisterImages Samples.three_good) Samples.clock 0
           Samples.unreadable_dir).
  - intros filename entry [].
  - intros row [].
Defined.

(** X21. Whenever [/recognize] answers with the recognition body, the
    status is 200 and the answer is backed by the data: the filename is
    the key of a cache entry within tolerance of the first face found in
    the submitted image, the confidence is one minus that distance, the
    table holds a row stored under the entry's path, and the user named
    is a known user who owns the first such row. The table is not
    changed. *)
Theorem recognize_route_success :
  forall (sqrtf : Q -> Q) (app app' : Routes.App)
         (data : Routes.RecognizeData) (now : Q) (fs : FileSystem)
         (message : string) (user : User.t) (confidence : Q)
         (filename : string) (status : nat),
    Routes.recognize_face sqrtf app data now fs
      = (app', (ErrorHandler.FaceRecognized message user confidence filename,
                status)) ->
    status = 200%nat /\
    In user (Routes.users app) /\
    Enrollment.rows app' = Enrollment.rows app /\
    exists image_data probe others entry d row,
      data = Routes.RecognizeImage image_data /\
      face_encodings (Routes.image image_data) = probe :: others /\
      In (filename, entry) (Enrollment.cache app') /\
      Numpy.face_distance sqrtf (encoding entry) probe = Some d /\
      d <= tolerance
             (FaceService.face_recognition_service (Routes.face_service app'))
      /\ confidence = 1 - d /\
      FaceImageRepository.find_by_file_path (Enrollment.rows app)
        (file_path entry) = Some row /\
      FaceImage.user_id row = User.id user.
Proof.
  intros sqrtf app app' data now fs message user confidence filename status.
  unfold Routes.recognize_face, FaceService.recognize_face.
  destruct data as [| |image_data]; try discriminate.
  destruct (negb (Routes.base64_valid image_data)); [discriminate|].
  unfold recognize_face.
  destruct (negb (validate_image (Routes.image image_data)));
    [discriminate|].
  destruct (negb (imdecode_ok (Routes.image image_data))); [discriminate|].
  destruct (face_encodings (Routes.image image_data)) as [|probe others]
    eqn:Hprobe; [discriminate|].
  destruct (scan sqrtf _ probe _) as [r|] eqn:S; [|discriminate].
  destruct (PathFacts.scan_some_match sqrtf _ _ _ _ S)
    as [entry [d [I [P [E [L C]]]]]].
  destruct (FaceImageRepository.find_by_file_path
              (FaceService.face_image_repository (Routes.face_service app))
              (r_file_path r)) as [row|] eqn:F; [|discriminate].
  simpl.
  destruct (Routes.get_user_by_id app (FaceImage.user_id row)) as [u|] eqn:U;
    [|discriminate].
  intros Hres. injection Hres as <- <- <- <- <- <-.
  unfold Routes.get_user_by_id in U. apply find_some in U.
  destruct U as [Iu Eu]. apply Z.eqb_eq in Eu.
  split; [reflexivity|]. split; [exact Iu|]. split; [reflexivity|].
  exists image_data, probe, others, entry, d, row.
  unfold Enrollment.cache, Enrollment.rows. simpl.
  rewrite <- P. repeat split; auto.
Qed.

(** X21, a run: a service over the directory [faces], whose cache and
    table agree on the path of [a.jpg]; user 7 is recognized with
    confidence 1/2. *)
Lemma recognize_route_success_witness :
  In Samples.ann (Routes.users (Samples.app Samples.far_first
                                  [Samples.row 1 7 "faces/a.jpg"])).
Proof.
  apply (recognize_route_success Numpy.exact_sqrt
           (Samples.app Samples.far_first [Samples.row 1 7 "faces/a.jpg"])
           (Samples.app Samples.far_first [Samples.row 1 7 "faces/a.jpg"])
           (Routes.RecognizeImage (Samples.upload (Samples.one_face 0)))
           100 Samples.unreadable_dir "Face recognized" Samples.ann (1#2)
           "a.jpg" 200).
  reflexivity.
Defined.
